(** * StethApp model utilities: a shallow embedding of the six scripts

    The repository is a flat set of one-shot Python scripts around the
    TensorFlow Lite tool chain.  Each script is embedded as a computation in
    a small state-and-exception monad over a [world] (file system, process
    environment, console).  The TensorFlow / NumPy calls the scripts make
    are not part of the repository: their outcomes are supplied by a record
    [tf_lib] of oracles, over which every theorem quantifies.

    Conventions of the model:
    - a script starts once [import tensorflow] has succeeded;
    - a library call may read the file system and may raise (for a reason
      of the library's own, [refuses], or because its arguments are
      wrong), but changes nothing in the world; what it prints itself
      ([model.summary()]) is given as lines;
    - the console accepts every string, so [print] never raises;
    - opening a file for writing may fail, per path ([unwritable]);
    - every exception is an instance of [Exception]. *)

From Stdlib Require Import ZArith QArith Ascii String.
From stdpp Require Import base gmap strings list pretty.

Open Scope string_scope.
Open Scope list_scope.
Open Scope Z_scope.

(** ** Python values, exceptions and results *)

(** Scalars found in an operator entry of [_get_ops_details()]. *)
Inductive pyval :=
| PyInt (z : Z)
| PyStr (s : string).

#[global] Instance pyval_eq_dec : EqDecision pyval.
Proof. solve_decision. Defined.

(** [str(v)], as an f-string renders a value. *)
Definition py_str (v : pyval) : string :=
  match v with
  | PyInt z => pretty z
  | PyStr s => s
  end.

Definition py_type_name (v : pyval) : string :=
  match v with
  | PyInt _ => "int"
  | PyStr _ => "str"
  end.

(** [a == b] on scalars: an [int] never equals a [str]. *)
Definition py_eq (a b : pyval) : bool := bool_decide (a = b).

(** A raised exception: its class and [str(e)].  Every exception of the
    model is an instance of Python's [Exception], which is what the
    scripts' [except Exception as e] clauses catch. *)
Record exn := Exn { exn_class : string; exn_msg : string }.

Inductive result (A : Type) :=
| Ret (a : A)
| Raise (e : exn).
Arguments Ret {A} a.
Arguments Raise {A} e.

#[global] Instance result_ret : MRet result := fun A a => Ret a.
#[global] Instance result_bind : MBind result := fun A B f r =>
  match r with
  | Ret a => f a
  | Raise e => Raise e
  end.
#[global] Instance result_fmap : FMap result := fun A B f r =>
  match r with
  | Ret a => Ret (f a)
  | Raise e => Raise e
  end.

(** Values found in a tensor-details dictionary ([get_input_details()]):
    integer fields such as ['index'] and array fields such as ['shape']. *)
Inductive dval :=
| DInt (z : Z)
| DArr (a : list Z).

Definition IndexError : exn := Exn "IndexError" "list index out of range".
Definition KeyError (k : string) : exn := Exn "KeyError" ("'" +:+ k +:+ "'").
Definition TypeError (m : string) : exn := Exn "TypeError" m.

(** [l[0]] *)
Definition item0 {A} (l : list A) : result A :=
  match l with
  | x :: _ => Ret x
  | [] => Raise IndexError
  end.

(** [d[k]] *)
Definition getitem {V} (d : gmap string V) (k : string) : result V :=
  match d !! k with
  | Some v => Ret v
  | None => Raise (KeyError k)
  end.

(** [d.get(k, dflt)] *)
Definition dict_get {V} (d : gmap string V) (k : string) (dflt : V) : V :=
  default dflt (d !! k).

(** [s * n] on strings, and the newline character. *)
Fixpoint str_mul (s : string) (n : nat) : string :=
  match n with
  | O => ""
  | S n' => s +:+ str_mul s n'
  end.

Definition nl : string := String "010"%char "".

(** ** The world and the script monad *)

Record world := World {
  files : gmap string string;      (* path -> contents *)
  unwritable : gmap string exn;    (* paths whose [open(p, "w")] fails, with the OSError *)
  environ : gmap string string;    (* os.environ *)
  stdout : list string;            (* one entry per [print] call, oldest first *)
}.

Definition M (A : Type) : Type := world -> result A * world.

#[global] Instance M_ret : MRet M := fun A a w => (Ret a, w).
#[global] Instance M_bind : MBind M := fun A B f m w =>
  match m w with
  | (Ret a, w') => f a w'
  | (Raise e, w') => (Raise e, w')
  end.

(** A library outcome injected into a script. *)
Definition lift {A} (r : result A) : M A := fun w => (r, w).

(** A library call that reads the file system. *)
Definition reading {A} (f : gmap string string -> result A) : M A :=
  fun w => (f (files w), w).

Definition print (s : string) : M unit := fun w =>
  (Ret tt, World (files w) (unwritable w) (environ w) (stdout w ++ [s])).

(** [with open(path, "w"/"wb") as f: f.write(data)] *)
Definition write_file (path data : string) : M unit := fun w =>
  match unwritable w !! path with
  | Some e => (Raise e, w)
  | None => (Ret tt, World (<[path := data]> (files w)) (unwritable w) (environ w) (stdout w))
  end.

(** [os.environ[k] = v] *)
Definition setenv (k v : string) : M unit := fun w =>
  (Ret tt, World (files w) (unwritable w) (<[k := v]> (environ w)) (stdout w)).

(** [try: body  except Exception as e: handler e] *)
Definition try_except {A} (body : M A) (handler : exn -> M A) : M A := fun w =>
  match body w with
  | (Ret a, w') => (Ret a, w')
  | (Raise e, w') => handler e w'
  end.

(** [for x in l: f x] *)
Fixpoint for_each {A} (l : list A) (f : A -> M unit) : M unit :=
  match l with
  | [] => mret tt
  | x :: l' => f x ;; for_each l' f
  end.

(** ** The external library *)

Record interpreter := Interpreter {
  allocate_tensors : result unit;
  get_input_details : result (list (gmap string dval));
  get_output_details : result (list (gmap string dval));
  _get_ops_details : result (list (gmap string pyval));
  set_tensor : dval -> result unit;   (* with the script's random test input *)
  invoke : result unit;
  get_tensor : dval -> result string; (* the fetched array, rendered *)
}.

(** *** Keras functional models (create_simple_model.py,
    create_tf212_compatible.py)

    A symbolic tensor carries its shape ([None] is an unknown dimension,
    as Keras leaves the batch axis) and the layers applied since the
    input.  The shape rules are the library's; its error texts are
    abbreviated. *)

Definition shape := list (option Z).

Inductive layer :=
| GlobalAveragePooling1D
| Dense (units : Z) (activation : string) (name : option string)
| Dropout (rate : Q).

Record ktensor := KTensor {
  kt_shape : shape;
  kt_input_name : string;
  kt_layers : list layer;
}.

Definition ValueError (m : string) : exn := Exn "ValueError" m.

(** [tf.keras.Input(shape=shp, name=name)] *)
Definition Input (shp : list Z) (name : string) : ktensor :=
  KTensor (None :: map Some shp) name [].

Definition layer_shape (l : layer) (s : shape) : result shape :=
  match l with
  | GlobalAveragePooling1D =>
      match s with
      | [b; _; c] => Ret [b; c]
      | _ => Raise (ValueError "GlobalAveragePooling1D expects a 3D input")
      end
  | Dense u _ _ =>
      match rev s with
      | Some _ :: outer =>
          match outer with
          | [] => Raise (ValueError "Dense expects an input of rank 2 or more")
          | _ :: _ => Ret (rev (Some u :: outer))
          end
      | _ => Raise (ValueError "Dense expects a defined last dimension")
      end
  | Dropout _ => Ret s
  end.

(** [layer(x)] *)
Definition call_layer (l : layer) (x : ktensor) : result ktensor :=
  s ← layer_shape l (kt_shape x);
  mret (KTensor s (kt_input_name x) (kt_layers x ++ [l])).

Inductive optimizer :=
| OptimizerNamed (name : string)
| Adam (learning_rate : Q).

Record compile_args := CompileArgs {
  c_optimizer : optimizer;
  c_loss : string;
  c_metrics : list string;
}.

Record keras_model := KerasModel {
  km_inputs : ktensor;
  km_outputs : ktensor;
  km_name : option string;
  km_compiled : option compile_args;
}.

(** [tf.keras.Model(inputs=..., outputs=..., name=...)] and [model.compile(...)] *)
Definition Model (inputs outputs : ktensor) (name : option string) : keras_model :=
  KerasModel inputs outputs name None.

Definition compile (m : keras_model) (a : compile_args) : keras_model :=
  KerasModel (km_inputs m) (km_outputs m) (km_name m) (Some a).

(** *** Traced TensorFlow functions (create_minimal_model.py)

    The body of a [tf.function] is a dataflow expression over statically
    shaped tensors; tracing it infers the shape of every node and fails on
    a mismatch. *)

Inductive tnode :=
| TInput (spec : list Z)
| TConstant (rows : list (list Q))
| TReduceMean (x : tnode) (axis : nat)
| TReshape (x : tnode) (target : list Z)
| TMatMul (a b : tnode)
| TSoftmax (x : tnode).

Definition numel (s : list Z) : Z := foldr Z.mul 1 s.

Fixpoint infer (t : tnode) : result (list Z) :=
  match t with
  | TInput spec => Ret spec
  | TConstant rows =>
      match rows with
      | [] => Ret [0]
      | r :: rs =>
          if forallb (fun r' => Nat.eqb (length r') (length r)) rs
          then Ret [Z.of_nat (length rows); Z.of_nat (length r)]
          else Raise (ValueError "non-rectangular constant")
      end
  | TReduceMean x axis =>
      s ← infer x;
      if Nat.ltb axis (length s) then Ret (take axis s ++ drop (S axis) s)%list
      else Raise (ValueError "reduction axis out of range")
  | TReshape x target =>
      s ← infer x;
      if numel s =? numel target then Ret target
      else Raise (ValueError "cannot reshape: element counts differ")
  | TMatMul a b =>
      sa ← infer a;
      sb ← infer b;
      match sa, sb with
      | [m; k], [k'; n] =>
          if k =? k' then Ret [m; n]
          else Raise (ValueError "matmul: inner dimensions differ")
      | _, _ => Raise (ValueError "matmul expects rank-2 operands")
      end
  | TSoftmax x => infer x
  end.

Record concrete_function := ConcreteFunction {
  cf_graph : tnode;
  cf_input : list Z;
  cf_output : list Z;
}.

(** A checked [tf.TensorSpec]. *)
Record tensor_spec := TensorSpecOf {
  ts_shape : list Z;
  ts_dtype : string;
}.

(** *** The TFLite converter object

    An attribute the script does not assign stays [None] (library default). *)

Inductive conv_source :=
| FromKeras (m : keras_model)
| FromConcrete (fs : list concrete_function).

Record converter := Converter {
  source : conv_source;
  optimizations : option (list string);
  supported_ops : option (list string);
  experimental_new_converter : option bool;
  experimental_new_quantizer : option bool;
  allow_custom_ops : option bool;
  experimental_enable_resource_variables : option bool;
}.

Definition from_keras_model (m : keras_model) : converter :=
  Converter (FromKeras m) None None None None None None.

Definition from_concrete_functions (fs : list concrete_function) : converter :=
  Converter (FromConcrete fs) None None None None None None.

(** *** Library oracles *)

(** The calls the building scripts make before their [try] block.  The
    library may refuse any of them ([refuses]): a broken installation, a
    missing optional package, an unsupported configuration. *)
Inductive lib_call :=
| CallInput (shp : list Z) (name : string)
| CallLayer (l : layer) (x : ktensor)
| CallOptimizer (o : optimizer)
| CallModel (inputs outputs : ktensor) (name : option string)
| CallCompile (m : keras_model) (a : compile_args)
| CallSummary (m : keras_model)
| CallFromKerasModel (m : keras_model)
| CallFunction
| CallTensorSpec (shp : list Z) (dtype : string)
| CallGetConcreteFunction (spec : tensor_spec)
| CallFromConcreteFunctions (fs : list concrete_function).

Record tf_lib := TfLib {
  tf_version : string;                                   (* tf.__version__ *)
  np_str : list Z -> string;                             (* str() of an integer array *)
  Interpreter_path : string -> gmap string string -> result interpreter;
                                                         (* tf.lite.Interpreter(model_path=p) *)
  Interpreter_content : string -> result interpreter;    (* tf.lite.Interpreter(model_content=b) *)
  convert : converter -> result string;                  (* converter.convert() *)
  summary : keras_model -> list string;                  (* lines of model.summary() *)
  load_model : string -> gmap string string -> result keras_model;
                                                         (* tf.keras.models.load_model(p) *)
  refuses : lib_call -> option exn;                      (* a call the library fails on *)
}.

(** A library call: the library's own refusal, or else the outcome its
    arguments determine. *)
Definition calling {A} (L : tf_lib) (call : lib_call) (outcome : result A) : result A :=
  match refuses L call with
  | Some e => Raise e
  | None => outcome
  end.

(** [tf.keras.Input(shape=shp, name=name)] *)
Definition keras_Input (L : tf_lib) (shp : list Z) (name : string) : result ktensor :=
  calling L (CallInput shp name) (Ret (Input shp name)).

(** [Layer(...)(x)]: the layer is created and applied. *)
Definition keras_call (L : tf_lib) (l : layer) (x : ktensor) : result ktensor :=
  calling L (CallLayer l x) (call_layer l x).

(** [tf.keras.optimizers.Adam(learning_rate=lr)] *)
Definition keras_optimizer (L : tf_lib) (o : optimizer) : result optimizer :=
  calling L (CallOptimizer o) (Ret o).

(** [tf.keras.Model(inputs=..., outputs=..., name=...)] *)
Definition keras_Model (L : tf_lib) (inputs outputs : ktensor) (name : option string)
  : result keras_model :=
  calling L (CallModel inputs outputs name) (Ret (Model inputs outputs name)).

(** [model.compile(...)], giving the model as compiled. *)
Definition keras_compile (L : tf_lib) (m : keras_model) (a : compile_args)
  : result keras_model :=
  calling L (CallCompile m a) (Ret (compile m a)).

(** [model.summary()] *)
Definition keras_summary (L : tf_lib) (m : keras_model) : M unit :=
  lift (calling L (CallSummary m) (Ret tt)) ;;
  for_each (summary L m) print.

(** The decorator [@tf.function]. *)
Definition tf_function (L : tf_lib) : result unit :=
  calling L CallFunction (Ret tt).

(** [tf.TensorSpec(shape=shp, dtype=dtype)]: a negative dimension is
    refused with a ValueError. *)
Definition TensorSpec (L : tf_lib) (shp : list Z) (dtype : string) : result tensor_spec :=
  calling L (CallTensorSpec shp dtype)
    match List.find (fun d => d <? 0) shp with
    | Some d => Raise (ValueError ("Dimension " +:+ pretty d +:+ " must be >= 0"))
    | None => Ret (TensorSpecOf shp dtype)
    end.

(** [f.get_concrete_function(spec)]: the function is traced at [spec]. *)
Definition get_concrete_function (L : tf_lib) (f : tnode -> tnode) (spec : tensor_spec)
  : result concrete_function :=
  calling L (CallGetConcreteFunction spec)
    (out ← infer (f (TInput (ts_shape spec)));
     mret (ConcreteFunction (f (TInput (ts_shape spec))) (ts_shape spec) out)).

Definition dval_str (L : tf_lib) (v : dval) : string :=
  match v with
  | DInt z => pretty z
  | DArr a => np_str L a
  end.

(** [f"{label}: {details[0]['shape']}"], printed. *)
Definition print_shape (L : tf_lib) (label : string)
    (details : list (gmap string dval)) : M unit :=
  d ← lift (item0 details);
  s ← lift (getitem d "shape");
  print (label +:+ ": " +:+ dval_str L s).

(** ** check_model_versions.py *)

Module CheckModelVersions.

(** [op.get('op_name', 'Unknown')] and [op.get('version', 'Unknown')] *)
Definition reported_name (op : gmap string pyval) : pyval :=
  dict_get op "op_name" (PyStr "Unknown").
Definition reported_version (op : gmap string pyval) : pyval :=
  dict_get op "version" (PyStr "Unknown").

Definition op_line (op : gmap string pyval) : string :=
  let op_name := reported_name op in
  let version := reported_version op in
  "  - " +:+ py_str op_name +:+ " (version " +:+ py_str version +:+ ")".

Definition incompatible_line : string :=
  "    ❌ INCOMPATIBLE: This version is not supported by TFLite Flutter 0.11.0".

Definition compatible_line (version : pyval) : string :=
  "    ✅ COMPATIBLE: Version " +:+ py_str version +:+ " should work".

(** Lines 28-36: the loop body for best_model.tflite. *)
Definition report_op_best (op : gmap string pyval) : M unit :=
  let op_name := reported_name op in
  let version := reported_version op in
  print (op_line op) ;;
  if py_eq op_name (PyStr "FULLY_CONNECTED") && py_eq version (PyInt 12)
  then print incompatible_line
  else if py_eq op_name (PyStr "FULLY_CONNECTED")
  then print (compatible_line version)
  else mret tt.

(** Lines 58-60: the loop body for minimal_model.tflite. *)
Definition report_op_minimal (op : gmap string pyval) : M unit :=
  print (op_line op).

Definition analyzing_line (file : string) : string :=
  nl +:+ "Analyzing " +:+ file +:+ "...".

(** One [try] block up to its loop (lines 14-26 and 45-56): load the
    artifact, print its shapes, fetch the operator entries. *)
Definition open_report (L : tf_lib) (file : string)
  : M (list (gmap string pyval)) :=
  print (analyzing_line file) ;;
  interpreter ← reading (Interpreter_path L ("assets/models/" +:+ file)) ;
  lift (allocate_tensors interpreter) ;;
  input_details ← lift (get_input_details interpreter) ;
  output_details ← lift (get_output_details interpreter) ;
  print_shape L "Input shape" input_details ;;
  print_shape L "Output shape" output_details ;;
  ops ← lift (_get_ops_details interpreter) ;
  print "Operations used:" ;;
  mret ops.

(** The whole body of one [try] block; the two blocks differ in the
    loop body only. *)
Definition analyze_body (L : tf_lib) (file : string)
    (report_op : gmap string pyval -> M unit) : M unit :=
  ops ← open_report L file ;
  for_each ops report_op.

Definition error_line (file : string) (e : exn) : string :=
  "❌ Error analyzing " +:+ file +:+ ": " +:+ exn_msg e.

Definition analyze (L : tf_lib) (file : string)
    (report_op : gmap string pyval -> M unit) : M unit :=
  try_except (analyze_body L file report_op)
             (fun e => print (error_line file e)).

Definition rule : string := nl +:+ str_mul "=" 60.

(** Lines 4-10. *)
Definition banner_lines (L : tf_lib) : list string :=
  [ "TensorFlow version:" +:+ " " +:+ tf_version L;
    "TensorFlow Lite version compatibility:";
    "- TF 2.15+ uses FULLY_CONNECTED v12+ (incompatible with TFLite Flutter 0.11.0)";
    "- TF 2.8-2.14 uses FULLY_CONNECTED v11 (compatible)";
    "- TF 2.4-2.7 uses FULLY_CONNECTED v9-v10 (compatible)";
    rule ].

Definition summary_lines : list string :=
  [ rule;
    "SUMMARY:";
    "TFLite Flutter 0.11.0 supports:";
    "- FULLY_CONNECTED versions up to v11";
    "- Most other operations up to TF 2.14 level";
    "Your best_model.tflite likely uses FULLY_CONNECTED v12 (from TF 2.15+)";
    "The minimal_model.tflite should be compatible" ].

Definition main (L : tf_lib) : M unit :=
  for_each (banner_lines L) print ;;
  analyze L "best_model.tflite" report_op_best ;;
  print rule ;;
  analyze L "minimal_model.tflite" report_op_minimal ;;
  for_each summary_lines print.

End CheckModelVersions.

(** ** convert_model_compatible.py *)

Module ConvertModelCompatible.

Definition input_model_path : string := "assets/models/best_model.tflite".
Definition output_model_path : string := "assets/models/best_model_compatible.tflite".

Definition convert_body (L : tf_lib) : M bool :=
  interpreter ← reading (Interpreter_path L input_model_path) ;
  lift (allocate_tensors interpreter) ;;
  input_details ← lift (get_input_details interpreter) ;
  output_details ← lift (get_output_details interpreter) ;
  print "Original model details:" ;;
  print_shape L "Input shape" input_details ;;
  print_shape L "Output shape" output_details ;;
  print "❌ Cannot directly convert TFLite to compatible TFLite" ;;
  print "You need to recreate the model with TensorFlow 2.8 or 2.9" ;;
  mret false.

Definition convert_with_compatibility_flags (L : tf_lib) : M bool :=
  try_except (convert_body L)
             (fun e => print ("Error: " +:+ exn_msg e) ;; mret false).

Definition dq : string := String (ascii_of_nat 34) "".

(** The lines between the triple quotes (source lines 47-77). *)
Definition template_lines : list string :=
  [ "import tensorflow as tf";
    "";
    "# Load your original model (before TFLite conversion)";
    "# Replace this with your actual model loading code";
    "model = tf.keras.models.load_model(" +:+ dq +:+ "your_original_model.h5" +:+ dq +:+ ")";
    "";
    "# Create converter with compatibility settings";
    "converter = tf.lite.TFLiteConverter.from_keras_model(model)";
    "";
    "# Set compatibility options for TFLite Flutter 0.11.0";
    "converter.optimizations = [tf.lite.Optimize.DEFAULT]";
    "converter.target_spec.supported_ops = [";
    "    tf.lite.OpsSet.TFLITE_BUILTINS,";
    "]";
    "";
    "# Force use of older op versions";
    "converter.experimental_new_converter = False";
    "converter.experimental_new_quantizer = False";
    "";
    "# Convert with compatibility";
    "try:";
    "    tflite_model = converter.convert()";
    "    ";
    "    # Save compatible model";
    "    with open(" +:+ dq +:+ "assets/models/best_model_compatible.tflite" +:+ dq
      +:+ ", " +:+ dq +:+ "wb" +:+ dq +:+ ") as f:";
    "        f.write(tflite_model)";
    "    ";
    "    print(" +:+ dq +:+ "✅ Compatible model created!" +:+ dq +:+ ")";
    "    ";
    "except Exception as e:";
    "    print(f" +:+ dq +:+ "Conversion failed: {e}" +:+ dq +:+ ")" ].

Definition script_content : string :=
  nl +:+ foldr (fun l rest => l +:+ nl +:+ rest) "" template_lines.

Definition template_path : string := "create_compatible_model.py".

Definition create_compatible_converter_script : M unit :=
  write_file template_path script_content ;;
  print "✅ Created 'create_compatible_model.py' template" ;;
  print "Edit it with your original model path and run it".

Definition solution_lines : list string :=
  [ nl +:+ str_mul "=" 50;
    "SOLUTION:";
    "1. Edit 'create_compatible_model.py' with your original model path";
    "2. Run: python create_compatible_model.py";
    "3. Replace best_model.tflite with best_model_compatible.tflite";
    str_mul "=" 50 ].

Definition fallback : M unit :=
  create_compatible_converter_script ;;
  for_each solution_lines print.

Definition main (L : tf_lib) : M unit :=
  success ← convert_with_compatibility_flags L ;
  if negb success then fallback else mret tt.

End ConvertModelCompatible.

(** ** create_compatible_model.py (the emitted template, as committed) *)

Module CreateCompatibleModelScript.

Definition artifact_path : string := "assets/models/best_model_compatible.tflite".

Definition make_converter (model : keras_model) : converter :=
  let c := from_keras_model model in
  Converter (source c) (Some ["tf.lite.Optimize.DEFAULT"])
            (Some ["tf.lite.OpsSet.TFLITE_BUILTINS"])
            (Some false) (Some false)
            (allow_custom_ops c) (experimental_enable_resource_variables c).

Definition try_body (L : tf_lib) (c : converter) : M unit :=
  tflite_model ← lift (convert L c) ;
  write_file artifact_path tflite_model ;;
  print "✅ Compatible model created!".

Definition handler (e : exn) : M unit :=
  print ("Conversion failed: " +:+ exn_msg e).

Definition main (L : tf_lib) : M unit :=
  model ← reading (load_model L "your_original_model.h5") ;
  try_except (try_body L (make_converter model)) handler.

End CreateCompatibleModelScript.

(** ** create_minimal_model.py *)

Module CreateMinimalModel.

Definition artifact_path : string := "assets/models/minimal_model.tflite".

Definition simple_model (x : tnode) : tnode :=
  let x := TReduceMean x 1 in
  let x := TReshape x [1; 1] in
  let w1 := TConstant [[0.1; 0.2; 0.3]%Q] in
  let x := TMatMul x w1 in
  TSoftmax x.

Definition input_spec : list Z := [1; 32000; 1].

Definition make_converter (concrete_func : concrete_function) : converter :=
  let c := from_concrete_functions [concrete_func] in
  Converter (source c) (Some []) (supported_ops c)
            (experimental_new_converter c) (experimental_new_quantizer c)
            (allow_custom_ops c) (experimental_enable_resource_variables c).

(** Lines 49-66, "Test the model", ending in [return True]. *)
Definition self_test (L : tf_lib) (tflite_model : string) : M bool :=
  interpreter ← lift (Interpreter_content L tflite_model) ;
  lift (allocate_tensors interpreter) ;;
  input_details ← lift (get_input_details interpreter) ;
  output_details ← lift (get_output_details interpreter) ;
  print_shape L "Input shape" input_details ;;
  print_shape L "Output shape" output_details ;;
  d_in ← lift (item0 input_details) ;
  i_in ← lift (getitem d_in "index") ;
  lift (set_tensor interpreter i_in) ;;
  lift (invoke interpreter) ;;
  d_out ← lift (item0 output_details) ;
  i_out ← lift (getitem d_out "index") ;
  output ← lift (get_tensor interpreter i_out) ;
  print ("Test output: " +:+ output) ;;
  mret true.

Definition try_body (L : tf_lib) (c : converter) : M bool :=
  tflite_model ← lift (convert L c) ;
  write_file artifact_path tflite_model ;;
  print "✅ Minimal TFLite model created!" ;;
  self_test L tflite_model.

Definition handler (e : exn) : M bool :=
  print ("❌ Failed to create minimal model: " +:+ exn_msg e) ;; mret false.

(** Lines 15-38, before the [try]: decorate and trace [simple_model],
    create the converter and set its optimizations.  Each step is a
    library call and may raise. *)
Definition build_converter (L : tf_lib) : result converter :=
  tf_function L ;;
  spec ← TensorSpec L input_spec "tf.float32" ;
  concrete_func ← get_concrete_function L simple_model spec ;
  calling L (CallFromConcreteFunctions [concrete_func])
          (Ret (make_converter concrete_func)).

Definition create_minimal_tflite (L : tf_lib) : M bool :=
  converter ← lift (build_converter L) ;
  try_except (try_body L converter) handler.

Definition success_lines : list string :=
  [ nl +:+ str_mul "=" 50;
    "SUCCESS! Created minimal_model.tflite";
    "This is a basic model that should work with TFLite Flutter 0.11.0";
    "Update your Dart code to use 'minimal_model.tflite'";
    str_mul "=" 50 ].

Definition main (L : tf_lib) : M unit :=
  print ("TensorFlow version: " +:+ tf_version L) ;;
  success ← create_minimal_tflite L ;
  if (success : bool) then for_each success_lines print else mret tt.

End CreateMinimalModel.

(** ** create_simple_model.py *)

Module CreateSimpleModel.

Definition artifact_path : string := "assets/models/simple_compatible_model.tflite".

(** Lines 14-26: every step is a library call and may raise. *)
Definition build_model (L : tf_lib) : result keras_model :=
  inputs ← keras_Input L [32000; 1] "audio_input" ;
  x ← keras_call L GlobalAveragePooling1D inputs ;
  x ← keras_call L (Dense 64 "relu" None) x ;
  x ← keras_call L (Dense 32 "relu" None) x ;
  outputs ← keras_call L (Dense 3 "softmax" (Some "predictions")) x ;
  model ← keras_Model L inputs outputs None ;
  keras_compile L model (CompileArgs (OptimizerNamed "adam")
                                     "categorical_crossentropy" ["accuracy"]).

Definition make_converter (model : keras_model) : converter :=
  let c := from_keras_model model in
  Converter (source c) (Some []) (Some ["tf.lite.OpsSet.TFLITE_BUILTINS"])
            (Some false) (Some false)
            (allow_custom_ops c) (experimental_enable_resource_variables c).

(** Lines 52-62, "Test the model", ending in [return True]. *)
Definition self_test (L : tf_lib) (tflite_model : string) : M bool :=
  interpreter ← lift (Interpreter_content L tflite_model) ;
  lift (allocate_tensors interpreter) ;;
  input_details ← lift (get_input_details interpreter) ;
  output_details ← lift (get_output_details interpreter) ;
  print_shape L "Input shape" input_details ;;
  print_shape L "Output shape" output_details ;;
  mret true.

Definition try_body (L : tf_lib) (c : converter) : M bool :=
  tflite_model ← lift (convert L c) ;
  write_file artifact_path tflite_model ;;
  print "✅ Simple compatible model created!" ;;
  print "File: assets/models/simple_compatible_model.tflite" ;;
  self_test L tflite_model.

Definition handler (e : exn) : M bool :=
  print ("❌ Failed to create model: " +:+ exn_msg e) ;; mret false.

(** Lines 32-40: [from_keras_model], which may raise, then the attribute
    assignments. *)
Definition new_converter (L : tf_lib) (model : keras_model) : result converter :=
  calling L (CallFromKerasModel model) (Ret (make_converter model)).

Definition create_simple_compatible_model (L : tf_lib) : M bool :=
  model ← lift (build_model L) ;
  print "Model summary:" ;;
  keras_summary L model ;;
  converter ← lift (new_converter L model) ;
  try_except (try_body L converter) handler.

Definition next_steps : list string :=
  [ nl +:+ str_mul "=" 50;
    "NEXT STEPS:";
    "1. Update Dart code to use 'simple_compatible_model.tflite'";
    "2. Test the app";
    "3. This model gives random predictions - replace with your trained model";
    str_mul "=" 50 ].

Definition main (L : tf_lib) : M unit :=
  print ("TensorFlow version: " +:+ tf_version L) ;;
  success ← create_simple_compatible_model L ;
  if (success : bool) then for_each next_steps print else mret tt.

End CreateSimpleModel.

(** ** create_tf212_compatible.py *)

(** [a > b], [max(l)] and [v <= n] on scalars: Python orders ints with
    ints and strs with strs, and raises [TypeError] across the two. *)
Definition unorderable (op : string) (a b : pyval) : exn :=
  TypeError ("'" +:+ op +:+ "' not supported between instances of '"
             +:+ py_type_name a +:+ "' and '" +:+ py_type_name b +:+ "'").

Definition py_gt (a b : pyval) : result bool :=
  match a, b with
  | PyInt x, PyInt y => Ret (y <? x)
  | PyStr x, PyStr y => Ret (String.ltb y x)
  | _, _ => Raise (unorderable ">" a b)
  end.

Definition py_le (a b : pyval) : result bool :=
  match a, b with
  | PyInt x, PyInt y => Ret (x <=? y)
  | PyStr x, PyStr y => Ret (String.leb x y)
  | _, _ => Raise (unorderable "<=" a b)
  end.

Fixpoint py_max_from (best : pyval) (l : list pyval) : result pyval :=
  match l with
  | [] => Ret best
  | x :: l' =>
      b ← py_gt x best ;
      py_max_from (if (b : bool) then x else best) l'
  end.

Definition py_max (l : list pyval) : result pyval :=
  match l with
  | [] => Raise (ValueError "max() arg is an empty sequence")
  | x :: l' => py_max_from x l'
  end.

Module CreateTf212Compatible.

Definition output_path : string := "assets/models/best_model_compatible.tflite".

(** Line 10, executed when the module is loaded. *)
Definition module_init : M unit := setenv "TF_USE_LEGACY_KERAS" "1".

(** Lines 18-34: every step is a library call and may raise. *)
Definition build_model (L : tf_lib) : result keras_model :=
  inputs ← keras_Input L [32000; 1] "audio_input" ;
  x ← keras_call L GlobalAveragePooling1D inputs ;
  x ← keras_call L (Dense 128 "relu" (Some "dense1")) x ;
  x ← keras_call L (Dropout 0.2) x ;
  x ← keras_call L (Dense 64 "relu" (Some "dense2")) x ;
  x ← keras_call L (Dropout 0.2) x ;
  outputs ← keras_call L (Dense 3 "softmax" (Some "predictions")) x ;
  model ← keras_Model L inputs outputs (Some "audio_classifier") ;
  optimizer ← keras_optimizer L (Adam 0.001) ;
  keras_compile L model (CompileArgs optimizer
                                     "categorical_crossentropy" ["accuracy"]).

Definition make_converter (model : keras_model) : converter :=
  let c := from_keras_model model in
  Converter (source c) (Some []) (Some ["tf.lite.OpsSet.TFLITE_BUILTINS"])
            (Some false) (Some false) (Some false) (Some false).

Definition op_line (op : gmap string pyval) : string :=
  let op_name := dict_get op "op_name" (PyStr "Unknown") in
  let version := dict_get op "version" (PyStr "Unknown") in
  "  - " +:+ py_str op_name +:+ " (v" +:+ py_str version +:+ ")".

(** Lines 79-84: print every entry, collect the FULLY_CONNECTED versions. *)
Fixpoint scan_ops (ops : list (gmap string pyval))
    (fully_connected_versions : list pyval) : M (list pyval) :=
  match ops with
  | [] => mret fully_connected_versions
  | op :: ops' =>
      let op_name := dict_get op "op_name" (PyStr "Unknown") in
      let version := dict_get op "version" (PyStr "Unknown") in
      print (op_line op) ;;
      scan_ops ops'
        (if py_eq op_name (PyStr "FULLY_CONNECTED")
         then (fully_connected_versions ++ [version])%list
         else fully_connected_versions)
  end.

Definition verdict (fully_connected_versions : list pyval) : M unit :=
  match fully_connected_versions with
  | [] => mret tt
  | _ :: _ =>
      max_fc_version ← lift (py_max fully_connected_versions) ;
      ok ← lift (py_le max_fc_version (PyInt 11)) ;
      if (ok : bool)
      then print ("✅ FULLY_CONNECTED version " +:+ py_str max_fc_version +:+ " - COMPATIBLE!")
      else print ("❌ FULLY_CONNECTED version " +:+ py_str max_fc_version +:+ " - INCOMPATIBLE!")
  end.

(** Lines 65-93, "Test the model" and "Check operations", ending in
    [return True]. *)
Definition self_test (L : tf_lib) (tflite_model : string) : M bool :=
  interpreter ← lift (Interpreter_content L tflite_model) ;
  lift (allocate_tensors interpreter) ;;
  input_details ← lift (get_input_details interpreter) ;
  output_details ← lift (get_output_details interpreter) ;
  print_shape L "Input shape" input_details ;;
  print_shape L "Output shape" output_details ;;
  ops ← lift (_get_ops_details interpreter) ;
  print "Operations used:" ;;
  fully_connected_versions ← scan_ops ops [] ;
  verdict fully_connected_versions ;;
  mret true.

Definition try_body (L : tf_lib) (c : converter) : M bool :=
  print "Converting model..." ;;
  tflite_model ← lift (convert L c) ;
  write_file output_path tflite_model ;;
  print ("✅ Compatible model saved to: " +:+ output_path) ;;
  self_test L tflite_model.

Definition handler (e : exn) : M bool :=
  print ("❌ Conversion failed: " +:+ exn_msg e) ;; mret false.

(** Lines 40-52: [from_keras_model], which may raise, then the attribute
    assignments. *)
Definition new_converter (L : tf_lib) (model : keras_model) : result converter :=
  calling L (CallFromKerasModel model) (Ret (make_converter model)).

Definition create_compatible_model (L : tf_lib) : M bool :=
  model ← lift (build_model L) ;
  print "Model summary:" ;;
  keras_summary L model ;;
  converter ← lift (new_converter L model) ;
  try_except (try_body L converter) handler.

Definition success_lines : list string :=
  [ nl +:+ str_mul "=" 60;
    "SUCCESS! Your compatible model is ready.";
    "1. Update your Dart code to use 'best_model_compatible.tflite'";
    "2. Or rename it to 'best_model.tflite' to replace the old one";
    str_mul "=" 60 ].

Definition main (L : tf_lib) : M unit :=
  module_init ;;
  print ("TensorFlow version: " +:+ tf_version L) ;;
  success ← create_compatible_model L ;
  if (success : bool) then for_each success_lines print
  else print (nl +:+ "❌ Failed to create compatible model").

End CreateTf212Compatible.

(** ** Vocabulary of the specification *)

(** The world after printing [lines]. *)
Definition say (w : world) (lines : list string) : world :=
  World (files w) (unwritable w) (environ w) (stdout w ++ lines).

(** An operator entry of an inspection report starts with two spaces and a
    dash; the verdict lines under it are indented by four spaces. *)
Definition is_entry_line (s : string) : bool := String.prefix "  - " s.

(** The lines the best_model.tflite loop prints for one entry. *)
Definition best_lines (op : gmap string pyval) : list string :=
  CheckModelVersions.op_line op ::
  (if py_eq (CheckModelVersions.reported_name op) (PyStr "FULLY_CONNECTED")
   then [ if py_eq (CheckModelVersions.reported_version op) (PyInt 12)
          then CheckModelVersions.incompatible_line
          else CheckModelVersions.compatible_line (CheckModelVersions.reported_version op) ]
   else []).

(** The world of check_model_versions.py once both artifacts are done. *)
Definition after_checks (L : tf_lib) (w : world) : world :=
  let w1 := say w (CheckModelVersions.banner_lines L) in
  let w2 := (CheckModelVersions.analyze L "best_model.tflite"
               CheckModelVersions.report_op_best w1).2 in
  let w3 := say w2 [CheckModelVersions.rule] in
  (CheckModelVersions.analyze L "minimal_model.tflite"
     CheckModelVersions.report_op_minimal w3).2.

(** Frame of a run: files outside [ps] and environment variables outside
    [ks] keep their value, and permissions are untouched. *)
Definition touches_only (ps ks : gset string) (w w' : world) : Prop :=
  (∀ p, p ∉ ps → files w' !! p = files w !! p) ∧
  (∀ k, k ∉ ks → environ w' !! k = environ w !! k) ∧
  unwritable w' = unwritable w.

Definition confined {A} (ps ks : gset string) (m : M A) : Prop :=
  ∀ w, touches_only ps ks w (m w).2.

(** The model-artifact files of the repository. *)
Definition artifact_paths : gset string :=
  {[ "assets/models/best_model.tflite";
     "assets/models/minimal_model.tflite";
     "assets/models/simple_compatible_model.tflite";
     "assets/models/best_model_compatible.tflite" ]}.

(** A routine that gives up cleanly: it returns False, its last printed
    line is the diagnostic, and the file system is as it was. *)
Definition fails_cleanly (r : result bool * world) (w : world) (diag : string) : Prop :=
  r.1 = Ret false ∧ files r.2 = files w
  ∧ ∃ before, stdout r.2 = stdout w ++ before ++ [diag].

(** The converter each building routine hands to [convert()], if the
    library lets it get as far as its [try] block; otherwise the exception
    of the first library call that fails. *)
Definition minimal_converter (L : tf_lib) : result converter :=
  CreateMinimalModel.build_converter L.

Definition simple_converter (L : tf_lib) : result converter :=
  model ← CreateSimpleModel.build_model L ;
  calling L (CallSummary model) (Ret tt) ;;
  CreateSimpleModel.new_converter L model.

Definition tf212_converter (L : tf_lib) : result converter :=
  model ← CreateTf212Compatible.build_model L ;
  calling L (CallSummary model) (Ret tt) ;;
  CreateTf212Compatible.new_converter L model.

(** Input and output shape fixed when the converter's source was built; an
    unknown (batch) dimension is declared as 1 in a TFLite artifact. *)
Definition source_signature (s : conv_source) : option (list Z * list Z) :=
  match s with
  | FromKeras m =>
      Some (default 1 <$> kt_shape (km_inputs m), default 1 <$> kt_shape (km_outputs m))
  | FromConcrete [f] => Some (cf_input f, cf_output f)
  | FromConcrete _ => None
  end.

(** The shapes an artifact declares, read as the scripts read them:
    [get_input_details()[0]['shape']] and [get_output_details()[0]['shape']]. *)
Definition declared_shape (details : result (list (gmap string dval))) : option (list Z) :=
  match details with
  | Ret (d :: _) =>
      match d !! "shape" with
      | Some (DArr a) => Some a
      | _ => None
      end
  | _ => None
  end.

Definition declares (it : interpreter) (i o : list Z) : Prop :=
  declared_shape (get_input_details it) = Some i ∧
  declared_shape (get_output_details it) = Some o.

(** The converter's contract the shape property rests on: an artifact it
    produces declares the signature of its source. *)
Definition converter_keeps_signature (L : tf_lib) : Prop :=
  ∀ c content it i o,
    convert L c = Ret content →
    Interpreter_content L content = Ret it →
    source_signature (source c) = Some (i, o) →
    declares it i o.

(** ** Sample libraries and worlds *)

Module Samples.

Definition w_empty : world := World ∅ ∅ ∅ [].

Definition render_array (a : list Z) : string :=
  "[" +:+ String.concat " " (pretty <$> a) +:+ "]".

Definition toy_interpreter (i o : list Z) (ops : list (gmap string pyval))
  : interpreter :=
  Interpreter (Ret tt)
              (Ret [ {[ "index" := DInt 0; "shape" := DArr i ]} ])
              (Ret [ {[ "index" := DInt 7; "shape" := DArr o ]} ])
              (Ret ops)
              (fun _ => Ret tt) (Ret tt)
              (fun _ => Ret "[[0.3 0.3 0.4]]").

Definition could_not_open (p : string) : exn :=
  ValueError ("Could not open '" +:+ p +:+ "'.").
Definition bad_flatbuffer : exn :=
  ValueError "Model provided has model identifier 'XXXX', should be 'TFL3'".
Definition converter_error : exn := Exn "ConverterError" "unsupported operation".
Definition no_such_model (p : string) : exn :=
  Exn "OSError" ("No file or directory found at " +:+ p).

Definition some_model : keras_model :=
  Model (Input [32000; 1] "audio_input") (Input [32000; 1] "audio_input") None.

(** Nothing on disk loads, nothing converts. *)
Definition lib_missing : tf_lib :=
  TfLib "2.15.0" render_array
        (fun p _ => Raise (could_not_open p))
        (fun _ => Raise bad_flatbuffer)
        (fun _ => Raise converter_error)
        (fun _ => ["Model: model"])
        (fun p _ => Raise (no_such_model p))
        (fun _ => None).

(** The original Keras model loads, but conversion fails. *)
Definition lib_no_convert : tf_lib :=
  TfLib "2.15.0" render_array
        (fun p _ => Raise (could_not_open p))
        (fun _ => Raise bad_flatbuffer)
        (fun _ => Raise converter_error)
        (fun _ => ["Model: model"])
        (fun _ _ => Ret some_model)
        (fun _ => None).

(** Every artifact on disk loads and reports the operator entries [ops]. *)
Definition lib_with_ops (ops : list (gmap string pyval)) : tf_lib :=
  TfLib "2.15.0" render_array
        (fun _ _ => Ret (toy_interpreter [1; 32000; 1] [1; 3] ops))
        (fun _ => Ret (toy_interpreter [1; 32000; 1] [1; 3] ops))
        (fun _ => Raise converter_error)
        (fun _ => ["Model: model"])
        (fun p _ => Raise (no_such_model p))
        (fun _ => None).

Definition fully_connected (version : Z) : gmap string pyval :=
  {[ "op_name" := PyStr "FULLY_CONNECTED"; "version" := PyInt version ]}.

(** An entry as a loader without version information reports it. *)
Definition conv_without_version : gmap string pyval :=
  {[ "op_name" := PyStr "CONV_2D" ]}.

(** A converter that honours the audio-classifier signature and rejects
    everything else; what it emits loads back with that signature. *)
Definition lib_faithful : tf_lib :=
  TfLib "2.12.0" render_array
        (fun p _ => Raise (could_not_open p))
        (fun _ => Ret (toy_interpreter [1; 32000; 1] [1; 3] [fully_connected 11]))
        (fun c => if decide (source_signature (source c) = Some ([1; 32000; 1], [1; 3]))
                  then Ret "TFL3" else Raise converter_error)
        (fun _ => ["Model: model"])
        (fun p _ => Raise (no_such_model p))
        (fun _ => None).

Definition permission_denied (p : string) : exn :=
  Exn "PermissionError" ("[Errno 13] Permission denied: '" +:+ p +:+ "'").

(** A working directory in which the template cannot be created. *)
Definition w_read_only : world :=
  World ∅ {[ "create_compatible_model.py" :=
               permission_denied "create_compatible_model.py" ]} ∅ [].

End Samples.

(** ** Further vocabulary and samples *)

(** The test both scripts apply to an entry: [op_name == 'FULLY_CONNECTED']. *)
Definition is_fully_connected (op : gmap string pyval) : bool :=
  py_eq (CheckModelVersions.reported_name op) (PyStr "FULLY_CONNECTED").

(** A line of an inspection report that is a verdict, not an entry. *)
Definition is_verdict_line (s : string) : bool := negb (is_entry_line s).

(** The last line create_tf212_compatible.py prints about the
    FULLY_CONNECTED versions it found, of which [m] is the greatest. *)
Definition fc_verdict_line (m : Z) : string :=
  if m <=? 11
  then "✅ FULLY_CONNECTED version " +:+ pretty m +:+ " - COMPATIBLE!"
  else "❌ FULLY_CONNECTED version " +:+ pretty m +:+ " - INCOMPATIBLE!".

(** A routine that reports failure although its artifact is on disk: it
    returns False, its last printed line is the diagnostic, and the file
    system differs from the initial one by the saved artifact. *)
Definition fails_after_saving (r : result bool * world) (w : world)
    (path content diag : string) : Prop :=
  r.1 = Ret false ∧ files r.2 = <[path := content]> (files w)
  ∧ ∃ before, stdout r.2 = stdout w ++ before ++ [diag].

Module MoreSamples.

(** An entry as a loader without version information reports a dense layer. *)
Definition fc_without_version : gmap string pyval :=
  {[ "op_name" := PyStr "FULLY_CONNECTED" ]}.

(** Conversion works; the artifact loads and lists an unversioned dense layer. *)
Definition lib_unversioned : tf_lib :=
  TfLib "2.15.0" Samples.render_array
        (fun p _ => Raise (Samples.could_not_open p))
        (fun _ => Ret (Samples.toy_interpreter [1; 32000; 1] [1; 3]
                         [Samples.conv_without_version; fc_without_version]))
        (fun _ => Ret "TFL3")
        (fun _ => ["Model: model"])
        (fun _ _ => Ret Samples.some_model)
        (fun _ => None).

(** Conversion works, but what it emits does not load back. *)
Definition lib_unloadable : tf_lib :=
  TfLib "2.15.0" Samples.render_array
        (fun p _ => Raise (Samples.could_not_open p))
        (fun _ => Raise Samples.bad_flatbuffer)
        (fun _ => Ret "TFL3")
        (fun _ => ["Model: model"])
        (fun _ _ => Ret Samples.some_model)
        (fun _ => None).

Definition no_such_directory (p : string) : exn :=
  Exn "FileNotFoundError" ("[Errno 2] No such file or directory: '" +:+ p +:+ "'").

(** A working directory without the assets/models folder. *)
Definition w_no_assets : world :=
  World ∅
        {[ "assets/models/minimal_model.tflite" :=
             no_such_directory "assets/models/minimal_model.tflite";
           "assets/models/simple_compatible_model.tflite" :=
             no_such_directory "assets/models/simple_compatible_model.tflite";
           "assets/models/best_model_compatible.tflite" :=
             no_such_directory "assets/models/best_model_compatible.tflite" ]}
        ∅ [].

(** An interpreter that loads but describes no input tensor. *)
Definition interpreter_without_inputs : interpreter :=
  Interpreter (Ret tt) (Ret []) (Ret [ {[ "shape" := DArr [1; 3] ]} ]) (Ret [])
              (fun _ => Ret tt) (Ret tt) (fun _ => Ret "[]").

Definition lib_without_inputs : tf_lib :=
  TfLib "2.15.0" Samples.render_array
        (fun _ _ => Ret interpreter_without_inputs)
        (fun _ => Ret interpreter_without_inputs)
        (fun _ => Raise Samples.converter_error)
        (fun _ => ["Model: model"])
        (fun p _ => Raise (Samples.no_such_model p))
        (fun _ => None).

Definition no_ops_details : exn :=
  Exn "AttributeError" "'Interpreter' object has no attribute '_get_ops_details'".

(** An interpreter of a release without the private operator listing. *)
Definition interpreter_without_listing : interpreter :=
  Interpreter (Ret tt)
              (Ret [ {[ "index" := DInt 0; "shape" := DArr [1; 32000; 1] ]} ])
              (Ret [ {[ "index" := DInt 7; "shape" := DArr [1; 3] ]} ])
              (Raise no_ops_details)
              (fun _ => Ret tt) (Ret tt) (fun _ => Ret "[]").

Definition lib_without_listing : tf_lib :=
  TfLib "2.4.0" Samples.render_array
        (fun _ _ => Ret interpreter_without_listing)
        (fun _ => Ret interpreter_without_listing)
        (fun _ => Raise Samples.converter_error)
        (fun _ => ["Model: model"])
        (fun p _ => Raise (Samples.no_such_model p))
        (fun _ => None).

(** Conversion works; the artifact loads and lists dense layers of the
    given versions. *)
Definition lib_dense (versions : list Z) : tf_lib :=
  TfLib "2.15.0" Samples.render_array
        (fun p _ => Raise (Samples.could_not_open p))
        (fun _ => Ret (Samples.toy_interpreter [1; 32000; 1] [1; 3]
                         (Samples.conv_without_version
                            :: (Samples.fully_connected <$> versions))))
        (fun _ => Ret "TFL3")
        (fun _ => ["Model: model"])
        (fun _ _ => Ret Samples.some_model)
        (fun _ => None).

Definition keras_import_error : exn :=
  Exn "ImportError" "Keras cannot be imported. Check that it is installed.".

(** An installation whose Keras cannot be used: the first Keras call of a
    script fails.  Conversion and loading would work. *)
Definition lib_no_keras : tf_lib :=
  TfLib "2.15.1" Samples.render_array
        (fun p _ => Raise (Samples.could_not_open p))
        (fun _ => Raise Samples.bad_flatbuffer)
        (fun _ => Ret "TFL3")
        (fun _ => ["Model: model"])
        (fun _ _ => Ret Samples.some_model)
        (fun call => match call with
                     | CallInput _ _ => Some keras_import_error
                     | _ => None
                     end).

Definition tracing_error : exn :=
  Exn "RuntimeError" "tf.function cannot be traced in this configuration".

(** An installation that builds models but cannot trace functions. *)
Definition lib_no_tracing : tf_lib :=
  TfLib "2.15.1" Samples.render_array
        (fun p _ => Raise (Samples.could_not_open p))
        (fun _ => Raise Samples.bad_flatbuffer)
        (fun _ => Ret "TFL3")
        (fun _ => ["Model: model"])
        (fun _ _ => Ret Samples.some_model)
        (fun call => match call with
                     | CallGetConcreteFunction _ => Some tracing_error
                     | _ => None
                     end).

End MoreSamples.

(** * Verification *)

(** ** The script monad *)

Ltac unfold_monad :=
  repeat (progress unfold mbind, M_bind, mret, M_ret, try_except, lift, reading,
                   print_shape, print, result_bind, result_ret in * ).

(** Case analysis on every pending library outcome. *)
Ltac oracle_cases :=
  repeat (simpl in *;
    match goal with
    | |- context [match ?r with Ret _ => _ | Raise _ => _ end] =>
        destruct r eqn:?
    end).

Lemma bind_run {A B} (m : M A) (k : A → M B) (w : world) :
  (m ≫= k) w =
  match m w with
  | (Ret a, w') => k a w'
  | (Raise e, w') => (Raise e, w')
  end.
Proof. reflexivity. Qed.

Lemma try_except_caught {A} (body : M A) (h : exn → M A) w e w' :
  body w = (Raise e, w') → try_except body h w = h e w'.
Proof. intros H. unfold try_except. by rewrite H. Qed.

Lemma try_except_passed {A} (body : M A) (h : exn → M A) w a w' :
  body w = (Ret a, w') → try_except body h w = (Ret a, w').
Proof. intros H. unfold try_except. by rewrite H. Qed.

Lemma say_nil w : say w [] = w.
Proof. destruct w. unfold say. simpl. by rewrite app_nil_r. Qed.

Lemma say_say w l1 l2 : say (say w l1) l2 = say w (l1 ++ l2).
Proof. unfold say. simpl. by rewrite app_assoc. Qed.

Lemma print_say s w : print s w = (Ret tt, say w [s]).
Proof. reflexivity. Qed.

Lemma for_each_print (l : list string) w :
  for_each l print w = (Ret tt, say w l).
Proof.
  revert w. induction l as [|s l IH]; intros w.
  - simpl. by rewrite say_nil.
  - simpl. rewrite bind_run, print_say, IH, say_say. reflexivity.
Qed.

(** ** convert_model_compatible.py: the downgrade attempt and its fallback *)

Section Downgrade.
Import ConvertModelCompatible.

Lemma convert_outcome (L : tf_lib) (w : world) :
  ∃ out, convert_with_compatibility_flags L w = (Ret false, say w out).
Proof.
  unfold convert_with_compatibility_flags, convert_body, say.
  unfold_monad. oracle_cases; eexists; simpl;
    rewrite <- ?app_assoc; try reflexivity.
  all: try (rewrite <- (app_nil_r (stdout w)) at 1; reflexivity).
Qed.

Lemma convert_returns_false (L : tf_lib) (w : world) :
  (convert_with_compatibility_flags L w).1 = Ret false.
Proof. destruct (convert_outcome L w) as [out ->]. reflexivity. Qed.

(** C4: convert_with_compatibility_flags returns False on every input,
    whether the compiled model loads (the [try] body runs to its
    [return False]) or a step of the body raises (the handler's
    [return False]); it never returns True and never raises. *)
Theorem convert_with_compatibility_flags_fails (L : tf_lib) (w : world) :
  (convert_with_compatibility_flags L w).1 = Ret false
  ∧ (∀ w', convert_body L w ≠ (Ret true, w'))
  ∧ (∀ e w', convert_body L w = (Raise e, w') →
       convert_with_compatibility_flags L w = (Ret false, say w' ["Error: " +:+ exn_msg e])).
Proof.
  split; [|split].
  - apply convert_returns_false.
  - intros w'. unfold convert_body. unfold_monad. oracle_cases; congruence.
  - intros e w' H. unfold convert_with_compatibility_flags.
    rewrite (try_except_caught _ _ _ _ _ H). reflexivity.
Qed.

Lemma convert_with_compatibility_flags_fails_witness :
  convert_with_compatibility_flags Samples.lib_missing Samples.w_empty
  = (Ret false,
     say Samples.w_empty ["Error: Could not open 'assets/models/best_model.tflite'."]).
Proof.
  destruct (convert_with_compatibility_flags_fails Samples.lib_missing Samples.w_empty)
    as (_ & _ & H).
  apply (H (Samples.could_not_open input_model_path) Samples.w_empty). reflexivity.
Defined.

(** C9: the downgrade attempt writes no file.  Whatever the library
    does, the file system after convert_with_compatibility_flags is the
    one before it (in particular at best_model_compatible.tflite, the
    path it only names); the call prints and nothing else. *)
Theorem convert_with_compatibility_flags_writes_nothing (L : tf_lib) (w : world) :
  let w' := (convert_with_compatibility_flags L w).2 in
  files w' = files w
  ∧ files w' !! output_model_path = files w !! output_model_path
  ∧ unwritable w' = unwritable w
  ∧ environ w' = environ w.
Proof.
  destruct (convert_outcome L w) as [out ->]. simpl. auto.
Qed.

Lemma fallback_writable (w : world) :
  unwritable w !! template_path = None →
  fallback w =
    (Ret tt,
     World (<[template_path := script_content]> (files w)) (unwritable w) (environ w)
           (stdout w ++ [ "✅ Created 'create_compatible_model.py' template";
                          "Edit it with your original model path and run it" ]
                     ++ solution_lines)).
Proof.
  intros Hw. unfold fallback, create_compatible_converter_script.
  rewrite !bind_run. unfold write_file. rewrite Hw.
  rewrite !bind_run, !print_say, for_each_print. unfold say. simpl.
  by rewrite <- !app_assoc.
Qed.

Lemma fallback_denied (w : world) (e : exn) :
  unwritable w !! template_path = Some e → fallback w = (Raise e, w).
Proof.
  intros Hw. unfold fallback, create_compatible_converter_script.
  rewrite !bind_run. unfold write_file. by rewrite Hw.
Qed.

(** C5 (amended): whenever the downgrade attempt returns False, the
    script goes on to its fallback, run from the world the attempt left.
    Where create_compatible_model.py can be opened for writing, that
    file then holds the fixed template text, the other files are
    untouched, and the two confirmation lines and the SOLUTION
    instructions are printed.  Where the open fails, its exception ends
    the script there: nothing is written and nothing more is printed. *)
Theorem main_falls_back (L : tf_lib) (w w1 : world) :
  convert_with_compatibility_flags L w = (Ret false, w1) →
  let q := String (ascii_of_nat 34) "" in
  let n := String (ascii_of_nat 10) "" in
  let template :=
    n +:+ "import tensorflow as tf" +:+ n
      +:+ n
      +:+ "# Load your original model (before TFLite conversion)" +:+ n
      +:+ "# Replace this with your actual model loading code" +:+ n
      +:+ "model = tf.keras.models.load_model(" +:+ q +:+ "your_original_model.h5"
            +:+ q +:+ ")" +:+ n
      +:+ n
      +:+ "# Create converter with compatibility settings" +:+ n
      +:+ "converter = tf.lite.TFLiteConverter.from_keras_model(model)" +:+ n
      +:+ n
      +:+ "# Set compatibility options for TFLite Flutter 0.11.0" +:+ n
      +:+ "converter.optimizations = [tf.lite.Optimize.DEFAULT]" +:+ n
      +:+ "converter.target_spec.supported_ops = [" +:+ n
      +:+ "    tf.lite.OpsSet.TFLITE_BUILTINS," +:+ n
      +:+ "]" +:+ n
      +:+ n
      +:+ "# Force use of older op versions" +:+ n
      +:+ "converter.experimental_new_converter = False" +:+ n
      +:+ "converter.experimental_new_quantizer = False" +:+ n
      +:+ n
      +:+ "# Convert with compatibility" +:+ n
      +:+ "try:" +:+ n
      +:+ "    tflite_model = converter.convert()" +:+ n
      +:+ "    " +:+ n
      +:+ "    # Save compatible model" +:+ n
      +:+ "    with open(" +:+ q +:+ "assets/models/best_model_compatible.tflite" +:+ q
            +:+ ", " +:+ q +:+ "wb" +:+ q +:+ ") as f:" +:+ n
      +:+ "        f.write(tflite_model)" +:+ n
      +:+ "    " +:+ n
      +:+ "    print(" +:+ q +:+ "✅ Compatible model created!" +:+ q +:+ ")" +:+ n
      +:+ "    " +:+ n
      +:+ "except Exception as e:" +:+ n
      +:+ "    print(f" +:+ q +:+ "Conversion failed: {e}" +:+ q +:+ ")" +:+ n in
  main L w = fallback w1
  ∧ (unwritable w1 !! "create_compatible_model.py" = None →
     main L w
     = (Ret tt,
        World (<[ "create_compatible_model.py" := template ]> (files w1))
              (unwritable w1) (environ w1)
              (stdout w1
               ++ [ "✅ Created 'create_compatible_model.py' template";
                    "Edit it with your original model path and run it";
                    n +:+ "==================================================";
                    "SOLUTION:";
                    "1. Edit 'create_compatible_model.py' with your original model path";
                    "2. Run: python create_compatible_model.py";
                    "3. Replace best_model.tflite with best_model_compatible.tflite";
                    "==================================================" ])))
  ∧ (∀ e, unwritable w1 !! "create_compatible_model.py" = Some e →
     main L w = (Raise e, w1)).
Proof.
  intros H q n template.
  assert (Hm : main L w = fallback w1).
  { unfold main. rewrite bind_run, H. reflexivity. }
  split; [exact Hm|]. split.
  - intros Hw. rewrite Hm, (fallback_writable _ Hw). reflexivity.
  - intros e Hw. rewrite Hm. by apply fallback_denied.
Qed.

Lemma main_falls_back_witness :
  files (main Samples.lib_missing Samples.w_empty).2 !! "create_compatible_model.py"
    = Some script_content
  ∧ String.length script_content = 932%nat
  ∧ (main Samples.lib_missing Samples.w_empty).1 = Ret tt.
Proof.
  destruct (main_falls_back Samples.lib_missing Samples.w_empty
              (say Samples.w_empty
                 ["Error: " +:+ exn_msg (Samples.could_not_open input_model_path)])
              eq_refl) as (_ & H & _).
  rewrite (H eq_refl). repeat split; reflexivity.
Defined.

(** C5 as stated fails where the template cannot be created: the
    attempt returns False, the fallback's open raises, the exception
    leaves the script, and there is neither a template nor a printed
    instruction. *)
Lemma fallback_may_write_nothing :
  convert_with_compatibility_flags Samples.lib_missing Samples.w_read_only
  = (Ret false,
     say Samples.w_read_only ["Error: Could not open 'assets/models/best_model.tflite'."])
  ∧ main Samples.lib_missing Samples.w_read_only
    = (Raise (Samples.permission_denied "create_compatible_model.py"),
       say Samples.w_read_only ["Error: Could not open 'assets/models/best_model.tflite'."])
  ∧ files (main Samples.lib_missing Samples.w_read_only).2
      !! "create_compatible_model.py" = None.
Proof. repeat split; reflexivity. Qed.

End Downgrade.

(** ** check_model_versions.py: the inspection routine *)

Section Inspection.
Import CheckModelVersions.

Lemma analyze_caught (L : tf_lib) file report w e w' :
  analyze_body L file report w = (Raise e, w') →
  analyze L file report w = (Ret tt, say w' [error_line file e]).
Proof.
  intros H. unfold analyze. rewrite (try_except_caught _ _ _ _ _ H). reflexivity.
Qed.

Lemma analyze_total (L : tf_lib) file report w :
  analyze L file report w = (Ret tt, (analyze L file report w).2).
Proof.
  unfold analyze, try_except.
  destruct (analyze_body L file report w) as [[[]|e] w']; reflexivity.
Qed.

Lemma open_report_load_failure (L : tf_lib) file w e :
  Interpreter_path L ("assets/models/" +:+ file) (files w) = Raise e →
  open_report L file w = (Raise e, say w [analyzing_line file]).
Proof.
  intros H. unfold open_report. rewrite bind_run, print_say, bind_run.
  unfold reading. simpl. rewrite H. reflexivity.
Qed.

Lemma main_run (L : tf_lib) (w : world) :
  main L w = (Ret tt, say (after_checks L w) summary_lines).
Proof.
  unfold main, after_checks.
  rewrite bind_run, for_each_print.
  rewrite bind_run, analyze_total.
  rewrite bind_run, print_say.
  rewrite bind_run, analyze_total.
  apply for_each_print.
Qed.

(** C3: when the loader cannot open or parse an artifact, the check of
    that artifact prints one diagnostic carrying the loader's message
    and ends normally; more generally any exception raised inside a
    [try] body ends that check the same way.  The script itself never
    ends in an exception: after both checks, failed or not, it prints
    the summary. *)
Theorem analyze_reports_load_failure (L : tf_lib) (w : world) (file : string)
    (report : gmap string pyval → M unit) (e : exn) :
  Interpreter_path L ("assets/models/" +:+ file) (files w) = Raise e →
  analyze L file report w
    = (Ret tt, say w [analyzing_line file; error_line file e])
  ∧ (∀ w0 e0 w', analyze_body L file report w0 = (Raise e0, w') →
       analyze L file report w0 = (Ret tt, say w' [error_line file e0]))
  ∧ (∀ w0, main L w0 = (Ret tt, say (after_checks L w0) summary_lines)).
Proof.
  intros H. split; [|split].
  - assert (Hb : analyze_body L file report w
                 = (Raise e, say w [analyzing_line file])).
    { unfold analyze_body. rewrite bind_run.
      by rewrite (open_report_load_failure _ _ _ _ H). }
    rewrite (analyze_caught _ _ _ _ _ _ Hb), say_say. reflexivity.
  - intros w0 e0 w'. apply analyze_caught.
  - apply main_run.
Qed.

(** Both artifacts missing: two diagnostics, then the summary. *)
Lemma analyze_reports_load_failure_witness :
  main Samples.lib_missing Samples.w_empty =
    (Ret tt,
     say Samples.w_empty
       (banner_lines Samples.lib_missing
        ++ [ analyzing_line "best_model.tflite";
             "❌ Error analyzing best_model.tflite: Could not open 'assets/models/best_model.tflite'.";
             rule;
             analyzing_line "minimal_model.tflite";
             "❌ Error analyzing minimal_model.tflite: Could not open 'assets/models/minimal_model.tflite'." ]
        ++ summary_lines)).
Proof.
  destruct (analyze_reports_load_failure Samples.lib_missing Samples.w_empty
              "best_model.tflite" report_op_best
              (Samples.could_not_open "assets/models/best_model.tflite") eq_refl)
    as (_ & _ & H).
  rewrite H. reflexivity.
Defined.

Lemma report_op_best_run op w :
  report_op_best op w = (Ret tt, say w (best_lines op)).
Proof.
  unfold report_op_best, best_lines.
  rewrite bind_run, print_say.
  destruct (py_eq (reported_name op) (PyStr "FULLY_CONNECTED"));
    destruct (py_eq (reported_version op) (PyInt 12)); simpl;
    rewrite ?print_say, ?say_say; reflexivity.
Qed.

Lemma loop_best ops w :
  for_each ops report_op_best w = (Ret tt, say w (ops ≫= best_lines)).
Proof.
  revert w. induction ops as [|op ops IH]; intros w; simpl.
  - by rewrite say_nil.
  - rewrite bind_run, report_op_best_run, IH, say_say. reflexivity.
Qed.

Lemma loop_minimal ops w :
  for_each ops report_op_minimal w = (Ret tt, say w (op_line <$> ops)).
Proof.
  revert w. induction ops as [|op ops IH]; intros w; simpl.
  - by rewrite say_nil.
  - rewrite bind_run. unfold report_op_minimal at 1.
    rewrite print_say, IH, say_say. reflexivity.
Qed.

Lemma op_line_is_entry op : is_entry_line (op_line op) = true.
Proof.
  unfold is_entry_line, op_line. simpl.
  match goal with |- String.prefix _ ?s = true => by destruct s end.
Qed.

Lemma verdicts_are_not_entries op :
  List.filter is_entry_line (best_lines op) = [op_line op].
Proof.
  unfold best_lines. simpl List.filter. rewrite op_line_is_entry.
  destruct (py_eq (reported_name op) _); [|reflexivity].
  destruct (py_eq (reported_version op) _); reflexivity.
Qed.

Lemma entries_of_best ops :
  List.filter is_entry_line (ops ≫= best_lines) = op_line <$> ops.
Proof.
  induction ops as [|op ops IH]; [reflexivity|].
  change ((op :: ops) ≫= best_lines) with (best_lines op ++ (ops ≫= best_lines)).
  rewrite List.filter_app, verdicts_are_not_entries, IH. reflexivity.
Qed.

Lemma entries_of_minimal ops :
  List.filter is_entry_line (op_line <$> ops) = op_line <$> ops.
Proof.
  induction ops as [|op ops IH]; [reflexivity|].
  rewrite fmap_cons. change (List.filter is_entry_line (op_line op :: (op_line <$> ops)))
    with (if is_entry_line (op_line op)
          then op_line op :: List.filter is_entry_line (op_line <$> ops)
          else List.filter is_entry_line (op_line <$> ops)).
  rewrite op_line_is_entry, IH. reflexivity.
Qed.

(** C2 (amended): for an artifact that loads, the routine prints one
    entry line per operator entry, in the loader's order (the verdict
    lines of the first check are interleaved but never mistaken for
    entries); each line carries the entry's name and version as the
    loader gives them, the placeholder Unknown standing for a missing
    field, and the version printed is the non-negative integer whenever
    the entry carries one. *)
Theorem report_follows_loader (L : tf_lib) (w w1 : world) (file : string)
    (ops : list (gmap string pyval)) :
  open_report L file w = (Ret ops, w1) →
  analyze L file report_op_best w = (Ret tt, say w1 (ops ≫= best_lines))
  ∧ analyze L file report_op_minimal w = (Ret tt, say w1 (op_line <$> ops))
  ∧ List.filter is_entry_line (ops ≫= best_lines) = op_line <$> ops
  ∧ List.filter is_entry_line (op_line <$> ops) = op_line <$> ops
  ∧ (∀ op, op_line op = "  - " +:+ py_str (reported_name op)
                         +:+ " (version " +:+ py_str (reported_version op) +:+ ")"
       ∧ reported_name op = default (PyStr "Unknown") (op !! "op_name")
       ∧ reported_version op = default (PyStr "Unknown") (op !! "version"))
  ∧ (∀ op v, op !! "version" = Some (PyInt v) → 0 ≤ v →
       reported_version op = PyInt v
       ∧ op_line op = "  - " +:+ py_str (reported_name op)
                      +:+ " (version " +:+ pretty v +:+ ")").
Proof.
  intros H. repeat split.
  - unfold analyze, analyze_body.
    apply try_except_passed. rewrite bind_run, H. apply loop_best.
  - unfold analyze, analyze_body.
    apply try_except_passed. rewrite bind_run, H. apply loop_minimal.
  - apply entries_of_best.
  - apply entries_of_minimal.
  - unfold reported_version, dict_get. by rewrite H0.
  - unfold op_line, reported_version, dict_get. by rewrite H0.
Qed.

Lemma report_follows_loader_witness :
  analyze (Samples.lib_with_ops [Samples.fully_connected 11; Samples.conv_without_version])
          "best_model.tflite" report_op_best Samples.w_empty
  = (Ret tt,
     say Samples.w_empty
       [ analyzing_line "best_model.tflite";
         "Input shape: [1 32000 1]";
         "Output shape: [1 3]";
         "Operations used:";
         "  - FULLY_CONNECTED (version 11)";
         "    ✅ COMPATIBLE: Version 11 should work";
         "  - CONV_2D (version Unknown)" ]).
Proof.
  destruct (report_follows_loader
              (Samples.lib_with_ops [Samples.fully_connected 11; Samples.conv_without_version])
              Samples.w_empty
              (say Samples.w_empty [ analyzing_line "best_model.tflite";
                                     "Input shape: [1 32000 1]";
                                     "Output shape: [1 3]";
                                     "Operations used:" ])
              "best_model.tflite"
              [Samples.fully_connected 11; Samples.conv_without_version]
              eq_refl) as (H & _).
  rewrite H. reflexivity.
Defined.

(** C2 as stated fails: an artifact loads, its loader reports an entry
    without a version field, and the routine reports the version
    Unknown, which is no integer. *)
Lemma report_version_may_be_unknown :
  analyze (Samples.lib_with_ops [Samples.conv_without_version])
          "minimal_model.tflite" report_op_minimal Samples.w_empty
  = (Ret tt,
     say Samples.w_empty
       [ analyzing_line "minimal_model.tflite";
         "Input shape: [1 32000 1]";
         "Output shape: [1 3]";
         "Operations used:";
         "  - CONV_2D (version Unknown)" ])
  ∧ reported_version Samples.conv_without_version = PyStr "Unknown"
  ∧ ¬ (∃ v : Z, 0 ≤ v ∧ reported_version Samples.conv_without_version = PyInt v).
Proof.
  split; [reflexivity|]. split; [reflexivity|].
  intros (v & _ & Hv). discriminate Hv.
Qed.





End Inspection.

(** ** Frame rules *)

Section Frame.
Context (ps ks : gset string).

Lemma touches_only_refl w : touches_only ps ks w w.
Proof. by repeat split. Qed.

Lemma touches_only_trans w1 w2 w3 :
  touches_only ps ks w1 w2 → touches_only ps ks w2 w3 → touches_only ps ks w1 w3.
Proof.
  intros (F1 & E1 & U1) (F2 & E2 & U2). repeat split.
  - intros p Hp. rewrite F2, F1; auto.
  - intros k Hk. rewrite E2, E1; auto.
  - congruence.
Qed.

Lemma confined_ret {A} (a : A) : confined ps ks (mret a).
Proof. intros w. apply touches_only_refl. Qed.

Lemma confined_lift {A} (r : result A) : confined ps ks (lift r).
Proof. intros w. apply touches_only_refl. Qed.

Lemma confined_reading {A} (f : gmap string string → result A) :
  confined ps ks (reading f).
Proof. intros w. apply touches_only_refl. Qed.

Lemma confined_print s : confined ps ks (print s).
Proof. intros w. by repeat split. Qed.

Lemma confined_write p data : p ∈ ps → confined ps ks (write_file p data).
Proof.
  intros Hp w. unfold write_file.
  destruct (unwritable w !! p); simpl; [apply touches_only_refl|].
  repeat split; simpl; auto.
  intros q Hq. apply lookup_insert_ne. intros ->. contradiction.
Qed.

Lemma confined_setenv k v : k ∈ ks → confined ps ks (setenv k v).
Proof.
  intros Hk w. repeat split; simpl; auto.
  intros q Hq. apply lookup_insert_ne. intros ->. contradiction.
Qed.

Lemma confined_bind {A B} (m : M A) (f : A → M B) :
  confined ps ks m → (∀ a, confined ps ks (f a)) → confined ps ks (m ≫= f).
Proof.
  intros Hm Hf w. rewrite bind_run. specialize (Hm w).
  destruct (m w) as [[a|e] w']; simpl in *; [|exact Hm].
  eapply touches_only_trans; [exact Hm|apply Hf].
Qed.

Lemma confined_try {A} (body : M A) (h : exn → M A) :
  confined ps ks body → (∀ e, confined ps ks (h e)) →
  confined ps ks (try_except body h).
Proof.
  intros Hm Hh w. unfold try_except. specialize (Hm w).
  destruct (body w) as [[a|e] w']; simpl in *; [exact Hm|].
  eapply touches_only_trans; [exact Hm|apply Hh].
Qed.

Lemma confined_for_each {A} (l : list A) (f : A → M unit) :
  (∀ a, confined ps ks (f a)) → confined ps ks (for_each l f).
Proof.
  intros Hf. induction l as [|a l IH]; simpl.
  - apply confined_ret.
  - apply confined_bind; auto.
Qed.

Lemma confined_print_shape L label details :
  confined ps ks (print_shape L label details).
Proof.
  unfold print_shape.
  repeat (apply confined_bind; [apply confined_lift|intros ?]).
  apply confined_print.
Qed.

Lemma confined_scan_ops ops acc :
  confined ps ks (CreateTf212Compatible.scan_ops ops acc).
Proof.
  revert acc. induction ops as [|op ops IH]; intros acc; simpl.
  - apply confined_ret.
  - apply confined_bind; [apply confined_print|intros _; apply IH].
Qed.

End Frame.

(** Decompose a script along its binds, prints and library calls. *)
Ltac frame :=
  repeat first
    [ apply confined_bind; [|intros ?]
    | apply confined_try; [|intros ?]
    | apply confined_for_each; intros ?
    | apply confined_print
    | apply confined_print_shape
    | apply confined_lift
    | apply confined_reading
    | apply confined_ret
    | apply confined_scan_ops
    | apply confined_write; set_solver
    | apply confined_setenv; set_solver
    | match goal with
      | |- confined _ _ (if ?b then _ else _) => destruct b
      | |- confined _ _ (match ?l with [] => _ | _ :: _ => _ end) => destruct l
      end ].

Lemma confined_nothing {A} (m : M A) w :
  confined ∅ ∅ m →
  files (m w).2 = files w ∧ environ (m w).2 = environ w
  ∧ unwritable (m w).2 = unwritable w.
Proof.
  intros H. destruct (H w) as (F & E & U). repeat split; [| |exact U].
  - apply map_eq. intros p. apply F. set_solver.
  - apply map_eq. intros k. apply E. set_solver.
Qed.

(** ** The artifact-building routines *)

Lemma try_except_true (body : M bool) (h : exn → M bool) w w' :
  (∀ e w0, (h e w0).1 = Ret false) →
  try_except body h w = (Ret true, w') → body w = (Ret true, w').
Proof.
  intros Hh. unfold try_except.
  destruct (body w) as [[b|e] w1]; [done|].
  intros H. specialize (Hh e w1). rewrite H in Hh. discriminate Hh.
Qed.

Lemma try_except_bool (body : M bool) (h : exn → M bool) w :
  (∀ e w0, (h e w0).1 = Ret false) →
  ∃ b, (try_except body h w).1 = Ret b.
Proof.
  intros Hh. unfold try_except.
  destruct (body w) as [[b|e] w1]; simpl; eauto.
Qed.

(** Convert, save, then go on without touching the disk: if the whole
    returns, the file holds what the converter returned. *)
Lemma save_returns {A} (r : result string) (path : string) (rest : string → M A)
    (a : A) (w w' : world) :
  (∀ m, confined ∅ ∅ (rest m)) →
  (tflite_model ← lift r ; write_file path tflite_model ;; rest tflite_model) w
    = (Ret a, w') →
  ∃ content w2, r = Ret content ∧ rest content w2 = (Ret a, w')
                ∧ files w' !! path = Some content.
Proof.
  intros Hrest. rewrite bind_run. unfold lift at 1.
  destruct r as [content|e]; [|discriminate].
  rewrite bind_run. unfold write_file.
  destruct (unwritable w !! path); [discriminate|].
  intros H. eexists _, _. split; [reflexivity|]. split; [exact H|].
  match type of H with ?m ?w2 = _ =>
    destruct (confined_nothing (rest content) w2 (Hrest content)) as (F & _)
  end.
  rewrite H in F. simpl in F. rewrite F. apply lookup_insert_eq.
Qed.

(** Conversion raised: nothing is saved and the body fails at once. *)
Lemma save_skipped {A} (r : result string) (path : string) (rest : string → M A)
    (e : exn) (w : world) :
  r = Raise e →
  (tflite_model ← lift r ; write_file path tflite_model ;; rest tflite_model) w
    = (Raise e, w).
Proof. intros ->. reflexivity. Qed.

(** Conversion returned and the path is writable: whatever happens
    afterwards, the file holds what the converter returned. *)
Lemma save_kept {A} (r : result string) (path : string) (rest : string → M A)
    (h : exn → M A) (content : string) (w : world) :
  r = Ret content → unwritable w !! path = None →
  (∀ m, confined ∅ ∅ (rest m)) → (∀ e, confined ∅ ∅ (h e)) →
  files (try_except (tflite_model ← lift r ;
                     write_file path tflite_model ;; rest tflite_model) h w).2
    !! path = Some content.
Proof.
  intros -> Hw Hrest Hh.
  set (w2 := World (<[path := content]> (files w)) (unwritable w) (environ w) (stdout w)).
  assert (E : try_except (tflite_model ← lift (Ret content) ;
                          write_file path tflite_model ;; rest tflite_model) h w
              = try_except (rest content) h w2).
  { unfold try_except. rewrite bind_run. unfold lift at 1.
    rewrite bind_run. unfold write_file. rewrite Hw. reflexivity. }
  rewrite E.
  destruct (confined_nothing (try_except (rest content) h) w2) as (F & _).
  { apply confined_try; auto. }
  rewrite F. apply lookup_insert_eq.
Qed.

(** Follow a chain of library calls that returned: none was refused. *)
Ltac accepted H :=
  unfold keras_Input, keras_call, keras_optimizer, keras_Model, keras_compile,
         tf_function, TensorSpec, get_concrete_function, calling in H;
  repeat (unfold mbind, result_bind, mret, result_ret in H; simpl in H;
          match type of H with
          | context [match refuses ?L ?c with Some _ => _ | None => _ end] =>
              destruct (refuses L c); [discriminate H|]
          end);
  unfold mbind, result_bind, mret, result_ret in H; simpl in H.

Section Minimal.
Import CreateMinimalModel.

Lemma minimal_self_test_loads L m b w w' :
  self_test L m w = (Ret b, w') → ∃ it, Interpreter_content L m = Ret it.
Proof.
  unfold self_test. rewrite bind_run. unfold lift at 1.
  destruct (Interpreter_content L m); [eauto|discriminate].
Qed.

Lemma minimal_unfold L w c :
  minimal_converter L = Ret c →
  create_minimal_tflite L w = try_except (try_body L c) handler w
  ∧ source_signature (source c) = Some ([1; 32000; 1], [1; 3]).
Proof.
  unfold minimal_converter, create_minimal_tflite. intros H. split.
  - rewrite bind_run. unfold lift at 1. by rewrite H.
  - unfold build_converter in H. accepted H. injection H as <-. reflexivity.
Qed.

Lemma minimal_escapes L w e :
  minimal_converter L = Raise e → create_minimal_tflite L w = (Raise e, w).
Proof.
  unfold minimal_converter, create_minimal_tflite. intros H.
  rewrite bind_run. unfold lift at 1. by rewrite H.
Qed.

End Minimal.

Section Simple.
Import CreateSimpleModel.

Lemma simple_self_test_loads L m b w w' :
  self_test L m w = (Ret b, w') → ∃ it, Interpreter_content L m = Ret it.
Proof.
  unfold self_test. rewrite bind_run. unfold lift at 1.
  destruct (Interpreter_content L m); [eauto|discriminate].
Qed.

Lemma simple_model_signature_built L model :
  build_model L = Ret model →
  source_signature (FromKeras model) = Some ([1; 32000; 1], [1; 3]).
Proof.
  intros H. unfold build_model in H. accepted H. injection H as <-. reflexivity.
Qed.

Lemma simple_unfold L w c :
  simple_converter L = Ret c →
  ∃ model, build_model L = Ret model ∧ c = make_converter model
    ∧ create_simple_compatible_model L w
      = try_except (try_body L c) handler
                   (say w ("Model summary:" :: summary L model))
    ∧ source_signature (source c) = Some ([1; 32000; 1], [1; 3]).
Proof.
  unfold simple_converter. intros H.
  destruct (build_model L) as [model|e0] eqn:Hb; [|discriminate].
  unfold mbind, result_bind in H.
  destruct (calling L (CallSummary model) (Ret tt)) as [[]|e1] eqn:Hs; [|discriminate].
  assert (Hc : c = make_converter model).
  { unfold new_converter, calling in H.
    destruct (refuses L (CallFromKerasModel model)); [discriminate|]. by injection H. }
  exists model. split; [reflexivity|]. split; [exact Hc|]. split.
  - unfold create_simple_compatible_model.
    rewrite bind_run. unfold lift at 1. rewrite Hb.
    rewrite bind_run, print_say, bind_run. unfold keras_summary.
    rewrite bind_run. unfold lift at 1. rewrite Hs, for_each_print.
    rewrite bind_run. unfold lift at 1. rewrite H, say_say. reflexivity.
  - subst c. apply (simple_model_signature_built L model Hb).
Qed.

Lemma simple_escapes L w e :
  simple_converter L = Raise e →
  ∃ out, create_simple_compatible_model L w = (Raise e, say w out).
Proof.
  unfold simple_converter, create_simple_compatible_model. intros H.
  rewrite bind_run. unfold lift at 1.
  destruct (build_model L) as [model|e0] eqn:Hb.
  - unfold mbind at 1, result_bind in H.
    rewrite bind_run, print_say, bind_run. unfold keras_summary.
    rewrite bind_run. unfold lift at 1.
    destruct (calling L (CallSummary model) (Ret tt)) as [[]|e1] eqn:Hs.
    + unfold mbind at 1, result_bind in H.
      rewrite for_each_print, bind_run. unfold lift at 1. rewrite H, say_say. eauto.
    + injection H as <-. eauto.
  - injection H as <-. exists []. by rewrite say_nil.
Qed.

End Simple.

Section Tf212.
Import CreateTf212Compatible.

Lemma confined_verdict ps ks v : confined ps ks (verdict v).
Proof. unfold verdict. frame. Qed.

Lemma tf212_self_test_loads L m b w w' :
  self_test L m w = (Ret b, w') → ∃ it, Interpreter_content L m = Ret it.
Proof.
  unfold self_test. rewrite bind_run. unfold lift at 1.
  destruct (Interpreter_content L m); [eauto|discriminate].
Qed.

Lemma tf212_model_signature_built L model :
  build_model L = Ret model →
  source_signature (FromKeras model) = Some ([1; 32000; 1], [1; 3]).
Proof.
  intros H. unfold build_model in H. accepted H. injection H as <-. reflexivity.
Qed.

Lemma tf212_unfold L w c :
  tf212_converter L = Ret c →
  ∃ model, build_model L = Ret model ∧ c = make_converter model
    ∧ create_compatible_model L w
      = try_except (try_body L c) handler
                   (say w ("Model summary:" :: summary L model))
    ∧ source_signature (source c) = Some ([1; 32000; 1], [1; 3]).
Proof.
  unfold tf212_converter. intros H.
  destruct (build_model L) as [model|e0] eqn:Hb; [|discriminate].
  unfold mbind, result_bind in H.
  destruct (calling L (CallSummary model) (Ret tt)) as [[]|e1] eqn:Hs; [|discriminate].
  assert (Hc : c = make_converter model).
  { unfold new_converter, calling in H.
    destruct (refuses L (CallFromKerasModel model)); [discriminate|]. by injection H. }
  exists model. split; [reflexivity|]. split; [exact Hc|]. split.
  - unfold create_compatible_model.
    rewrite bind_run. unfold lift at 1. rewrite Hb.
    rewrite bind_run, print_say, bind_run. unfold keras_summary.
    rewrite bind_run. unfold lift at 1. rewrite Hs, for_each_print.
    rewrite bind_run. unfold lift at 1. rewrite H, say_say. reflexivity.
  - subst c. apply (tf212_model_signature_built L model Hb).
Qed.

Lemma tf212_escapes L w e :
  tf212_converter L = Raise e →
  ∃ out, create_compatible_model L w = (Raise e, say w out).
Proof.
  unfold tf212_converter, create_compatible_model. intros H.
  rewrite bind_run. unfold lift at 1.
  destruct (build_model L) as [model|e0] eqn:Hb.
  - unfold mbind at 1, result_bind in H.
    rewrite bind_run, print_say, bind_run. unfold keras_summary.
    rewrite bind_run. unfold lift at 1.
    destruct (calling L (CallSummary model) (Ret tt)) as [[]|e1] eqn:Hs.
    + unfold mbind at 1, result_bind in H.
      rewrite for_each_print, bind_run. unfold lift at 1. rewrite H, say_say. eauto.
    + injection H as <-. eauto.
  - injection H as <-. exists []. by rewrite say_nil.
Qed.

End Tf212.

(** A routine that returned got past its construction steps. *)
Lemma minimal_reaches_try L w b w' :
  CreateMinimalModel.create_minimal_tflite L w = (Ret b, w') →
  ∃ c, minimal_converter L = Ret c.
Proof.
  destruct (minimal_converter L) as [c|e] eqn:H; [eauto|].
  rewrite (minimal_escapes L w e H). discriminate.
Qed.

Lemma simple_reaches_try L w b w' :
  CreateSimpleModel.create_simple_compatible_model L w = (Ret b, w') →
  ∃ c, simple_converter L = Ret c.
Proof.
  destruct (simple_converter L) as [c|e] eqn:H; [eauto|].
  destruct (simple_escapes L w e H) as [out ->]. discriminate.
Qed.

Lemma tf212_reaches_try L w b w' :
  CreateTf212Compatible.create_compatible_model L w = (Ret b, w') →
  ∃ c, tf212_converter L = Ret c.
Proof.
  destruct (tf212_converter L) as [c|e] eqn:H; [eauto|].
  destruct (tf212_escapes L w e H) as [out ->]. discriminate.
Qed.

(** C10: in each of the three building routines the artifact is written
    only after [convert()] has returned.  If the conversion raises, the
    routine prints its diagnostic with the exception's message as its last
    line, returns False, and leaves the whole file system, the output
    artifact included, exactly as it was. *)
Theorem conversion_failure_writes_no_artifact (L : tf_lib) (w : world) (e : exn) :
  (∀ c, minimal_converter L = Ret c → convert L c = Raise e →
     fails_cleanly (CreateMinimalModel.create_minimal_tflite L w) w
       ("❌ Failed to create minimal model: " +:+ exn_msg e))
  ∧ (∀ c, simple_converter L = Ret c → convert L c = Raise e →
     fails_cleanly (CreateSimpleModel.create_simple_compatible_model L w) w
       ("❌ Failed to create model: " +:+ exn_msg e))
  ∧ (∀ c, tf212_converter L = Ret c → convert L c = Raise e →
     fails_cleanly (CreateTf212Compatible.create_compatible_model L w) w
       ("❌ Conversion failed: " +:+ exn_msg e)).
Proof.
  split; [|split]; intros c Hc He.
  - destruct (minimal_unfold L w c Hc) as [-> _].
    erewrite try_except_caught
      by (unfold CreateMinimalModel.try_body; apply save_skipped, He).
    split; [done|split; [done|]]. exists nil. reflexivity.
  - destruct (simple_unfold L w c Hc) as (model & _ & _ & -> & _).
    erewrite try_except_caught
      by (unfold CreateSimpleModel.try_body; apply save_skipped, He).
    split; [done|split; [done|]]. simpl.
    exists ("Model summary:" :: summary L model). by rewrite <- app_assoc.
  - destruct (tf212_unfold L w c Hc) as (model & _ & _ & -> & _).
    erewrite try_except_caught.
    2:{ unfold CreateTf212Compatible.try_body. rewrite bind_run, print_say.
        apply save_skipped, He. }
    split; [done|split; [done|]]. simpl.
    exists (("Model summary:" :: summary L model) ++ ["Converting model..."]).
    by rewrite <- !app_assoc.
Qed.

Lemma conversion_failure_writes_no_artifact_witness :
  fails_cleanly
    (CreateMinimalModel.create_minimal_tflite Samples.lib_missing Samples.w_empty)
    Samples.w_empty "❌ Failed to create minimal model: unsupported operation"
  ∧ fails_cleanly
    (CreateSimpleModel.create_simple_compatible_model Samples.lib_missing Samples.w_empty)
    Samples.w_empty "❌ Failed to create model: unsupported operation"
  ∧ fails_cleanly
    (CreateTf212Compatible.create_compatible_model Samples.lib_missing Samples.w_empty)
    Samples.w_empty "❌ Conversion failed: unsupported operation".
Proof.
  destruct (conversion_failure_writes_no_artifact
              Samples.lib_missing Samples.w_empty Samples.converter_error)
    as (H1 & H2 & H3).
  split; [|split]; [eapply H1|eapply H2|eapply H3]; reflexivity.
Defined.

(** C7: given a converter that keeps the signature of its source, the
    artifact each building routine produces declares the shapes fixed at
    construction: input [1, 32000, 1] (32000 samples, one channel, batch
    of one) and output [1, 3].  A routine that returns True has saved
    such an artifact; and whenever the conversion returns and the
    artifact path can be written, the file holds the converter's output
    for the model as constructed, whatever the later self-test does. *)
Theorem built_artifact_declares_constructed_shapes (L : tf_lib) (w w' : world) :
  converter_keeps_signature L →
  (CreateMinimalModel.create_minimal_tflite L w = (Ret true, w') →
     ∃ content it, files w' !! CreateMinimalModel.artifact_path = Some content
       ∧ Interpreter_content L content = Ret it
       ∧ declares it [1; 32000; 1] [1; 3])
  ∧ (CreateSimpleModel.create_simple_compatible_model L w = (Ret true, w') →
     ∃ content it, files w' !! CreateSimpleModel.artifact_path = Some content
       ∧ Interpreter_content L content = Ret it
       ∧ declares it [1; 32000; 1] [1; 3])
  ∧ (CreateTf212Compatible.create_compatible_model L w = (Ret true, w') →
     ∃ content it, files w' !! CreateTf212Compatible.output_path = Some content
       ∧ Interpreter_content L content = Ret it
       ∧ declares it [1; 32000; 1] [1; 3])
  ∧ (∀ c content, minimal_converter L = Ret c → convert L c = Ret content →
     unwritable w !! CreateMinimalModel.artifact_path = None →
     files ((CreateMinimalModel.create_minimal_tflite L w).2)
       !! CreateMinimalModel.artifact_path = Some content
     ∧ ∀ it, Interpreter_content L content = Ret it → declares it [1; 32000; 1] [1; 3])
  ∧ (∀ c content, simple_converter L = Ret c → convert L c = Ret content →
     unwritable w !! CreateSimpleModel.artifact_path = None →
     files ((CreateSimpleModel.create_simple_compatible_model L w).2)
       !! CreateSimpleModel.artifact_path = Some content
     ∧ ∀ it, Interpreter_content L content = Ret it → declares it [1; 32000; 1] [1; 3])
  ∧ (∀ c content, tf212_converter L = Ret c → convert L c = Ret content →
     unwritable w !! CreateTf212Compatible.output_path = None →
     files ((CreateTf212Compatible.create_compatible_model L w).2)
       !! CreateTf212Compatible.output_path = Some content
     ∧ ∀ it, Interpreter_content L content = Ret it → declares it [1; 32000; 1] [1; 3]).
Proof.
  intros HL.
  repeat match goal with |- _ ∧ _ => split end.
  - intros H. destruct (minimal_reaches_try _ _ _ _ H) as [c1 H1].
    destruct (minimal_unfold L w c1 H1) as [Hu Hsig]. rewrite Hu in H.
    apply try_except_true in H; [|reflexivity].
    apply save_returns in H as (content & w2 & Hc & Hrest & Hf);
      [|intros m; frame].
    rewrite bind_run, print_say in Hrest.
    apply minimal_self_test_loads in Hrest as [it Hit].
    exists content, it. eauto.
  - intros H. destruct (simple_reaches_try _ _ _ _ H) as [c2 H2].
    destruct (simple_unfold L w c2 H2) as (model & _ & _ & Hu & Hsig).
    rewrite Hu in H. apply try_except_true in H; [|reflexivity].
    apply save_returns in H as (content & w2 & Hc & Hrest & Hf);
      [|intros m; frame].
    rewrite !bind_run, !print_say in Hrest.
    apply simple_self_test_loads in Hrest as [it Hit].
    exists content, it. eauto.
  - intros H. destruct (tf212_reaches_try _ _ _ _ H) as [c3 H3].
    destruct (tf212_unfold L w c3 H3) as (model & _ & _ & Hu & Hsig).
    rewrite Hu in H. apply try_except_true in H; [|reflexivity].
    unfold CreateTf212Compatible.try_body in H.
    rewrite bind_run, print_say in H.
    apply save_returns in H as (content & w2 & Hc & Hrest & Hf);
      [|intros m; frame; apply confined_verdict].
    rewrite !bind_run, !print_say in Hrest.
    apply tf212_self_test_loads in Hrest as [it Hit].
    exists content, it. eauto.
  - intros c content Hc Hconv Hw.
    destruct (minimal_unfold L w c Hc) as [-> Hsig]. split; [|eauto].
    apply save_kept; auto; intros; frame.
  - intros c content Hc Hconv Hw.
    destruct (simple_unfold L w c Hc) as (model & _ & _ & -> & Hsig). split; [|eauto].
    apply save_kept; auto; intros; frame.
  - intros c content Hc Hconv Hw.
    destruct (tf212_unfold L w c Hc) as (model & _ & _ & -> & Hsig). split; [|eauto].
    unfold CreateTf212Compatible.try_body, try_except.
    rewrite bind_run, print_say.
    apply (save_kept (convert L c) CreateTf212Compatible.output_path _
             CreateTf212Compatible.handler content); auto; intros; frame.
    apply confined_verdict.
Qed.

Lemma lib_faithful_keeps_signature : converter_keeps_signature Samples.lib_faithful.
Proof.
  intros c content it i o Hc Hit Hsig. simpl in Hc, Hit.
  case_decide as Hd; [|discriminate].
  rewrite Hd in Hsig. injection Hsig as <- <-. injection Hit as <-.
  split; reflexivity.
Defined.

Lemma built_artifact_declares_constructed_shapes_witness :
  (∃ content it,
     files ((CreateMinimalModel.create_minimal_tflite Samples.lib_faithful Samples.w_empty).2)
       !! CreateMinimalModel.artifact_path = Some content
     ∧ Interpreter_content Samples.lib_faithful content = Ret it
     ∧ declares it [1; 32000; 1] [1; 3])
  ∧ (∃ content it,
     files ((CreateSimpleModel.create_simple_compatible_model
               Samples.lib_faithful Samples.w_empty).2)
       !! CreateSimpleModel.artifact_path = Some content
     ∧ Interpreter_content Samples.lib_faithful content = Ret it
     ∧ declares it [1; 32000; 1] [1; 3])
  ∧ (∃ content it,
     files ((CreateTf212Compatible.create_compatible_model
               Samples.lib_faithful Samples.w_empty).2)
       !! CreateTf212Compatible.output_path = Some content
     ∧ Interpreter_content Samples.lib_faithful content = Ret it
     ∧ declares it [1; 32000; 1] [1; 3]).
Proof.
  split; [|split].
  - destruct (built_artifact_declares_constructed_shapes Samples.lib_faithful Samples.w_empty
                (CreateMinimalModel.create_minimal_tflite
                   Samples.lib_faithful Samples.w_empty).2
                lib_faithful_keeps_signature) as (H & _).
    apply H. reflexivity.
  - destruct (built_artifact_declares_constructed_shapes Samples.lib_faithful Samples.w_empty
                (CreateSimpleModel.create_simple_compatible_model
                   Samples.lib_faithful Samples.w_empty).2
                lib_faithful_keeps_signature) as (_ & H & _).
    apply H. reflexivity.
  - destruct (built_artifact_declares_constructed_shapes Samples.lib_faithful Samples.w_empty
                (CreateTf212Compatible.create_compatible_model
                   Samples.lib_faithful Samples.w_empty).2
                lib_faithful_keeps_signature) as (_ & _ & H & _).
    apply H. reflexivity.
Defined.

(** ** What the scripts touch *)

Lemma confined_env_kept {A} (ps : gset string) (m : M A) w :
  confined ps ∅ m → environ (m w).2 = environ w.
Proof.
  intros H. destruct (H w) as (_ & E & _).
  apply map_eq. intros k. apply E. set_solver.
Qed.

(** C8 (amended): the scripts make no network call (the world has no
    such component), and a run changes nothing but the console and the
    following: convert_model_compatible.py
    writes the template create_compatible_model.py (not a model artifact);
    each building script writes its own artifact; create_tf212_compatible.py
    sets the environment variable TF_USE_LEGACY_KERAS to 1.
    check_model_versions.py and the downgrade attempt write nothing. *)
Theorem scripts_frame (L : tf_lib) :
  confined ∅ ∅ (CheckModelVersions.main L)
  ∧ confined {[ "create_compatible_model.py" ]} ∅ (ConvertModelCompatible.main L)
  ∧ confined {[ "assets/models/best_model_compatible.tflite" ]} ∅
             (CreateCompatibleModelScript.main L)
  ∧ confined {[ "assets/models/minimal_model.tflite" ]} ∅ (CreateMinimalModel.main L)
  ∧ confined {[ "assets/models/simple_compatible_model.tflite" ]} ∅
             (CreateSimpleModel.main L)
  ∧ confined {[ "assets/models/best_model_compatible.tflite" ]}
             {[ "TF_USE_LEGACY_KERAS" ]} (CreateTf212Compatible.main L)
  ∧ (∀ w, environ (CreateTf212Compatible.main L w).2
          = <[ "TF_USE_LEGACY_KERAS" := "1" ]> (environ w)).
Proof.
  repeat match goal with |- _ ∧ _ => split end.
  - unfold CheckModelVersions.main, CheckModelVersions.analyze,
      CheckModelVersions.analyze_body, CheckModelVersions.open_report,
      CheckModelVersions.report_op_best, CheckModelVersions.report_op_minimal.
    frame.
  - unfold ConvertModelCompatible.main,
      ConvertModelCompatible.convert_with_compatibility_flags,
      ConvertModelCompatible.convert_body, ConvertModelCompatible.fallback,
      ConvertModelCompatible.create_compatible_converter_script,
      ConvertModelCompatible.template_path.
    frame.
  - unfold CreateCompatibleModelScript.main, CreateCompatibleModelScript.try_body,
      CreateCompatibleModelScript.handler, CreateCompatibleModelScript.artifact_path.
    frame.
  - unfold CreateMinimalModel.main, CreateMinimalModel.create_minimal_tflite,
      CreateMinimalModel.try_body, CreateMinimalModel.handler,
      CreateMinimalModel.self_test, CreateMinimalModel.artifact_path.
    frame.
  - unfold CreateSimpleModel.main, CreateSimpleModel.create_simple_compatible_model,
      CreateSimpleModel.try_body, CreateSimpleModel.handler,
      CreateSimpleModel.self_test, CreateSimpleModel.artifact_path.
    frame.
  - unfold CreateTf212Compatible.main, CreateTf212Compatible.module_init,
      CreateTf212Compatible.create_compatible_model, CreateTf212Compatible.try_body,
      CreateTf212Compatible.handler, CreateTf212Compatible.self_test,
      CreateTf212Compatible.output_path.
    frame. apply confined_verdict.
  - intros w. unfold CreateTf212Compatible.main. rewrite bind_run.
    unfold CreateTf212Compatible.module_init at 1, setenv at 1.
    match goal with |- environ (?m ?w1).2 = _ =>
      rewrite (confined_env_kept {[ "assets/models/best_model_compatible.tflite" ]} m w1)
    end; [reflexivity|].
    unfold CreateTf212Compatible.create_compatible_model, CreateTf212Compatible.try_body,
      CreateTf212Compatible.handler, CreateTf212Compatible.self_test,
      CreateTf212Compatible.output_path.
    frame. apply confined_verdict.
Qed.

(** C8 as stated fails twice: convert_model_compatible.py leaves behind a
    file that is no model artifact, and create_tf212_compatible.py sets an
    environment variable. *)
Lemma scripts_touch_more_than_artifacts :
  files Samples.w_empty !! "create_compatible_model.py" = None
  ∧ files ((ConvertModelCompatible.main Samples.lib_missing Samples.w_empty).2)
      !! "create_compatible_model.py" = Some ConvertModelCompatible.script_content
  ∧ ("create_compatible_model.py" ∉ artifact_paths)
  ∧ environ Samples.w_empty !! "TF_USE_LEGACY_KERAS" = None
  ∧ environ ((CreateTf212Compatible.main Samples.lib_missing Samples.w_empty).2)
      !! "TF_USE_LEGACY_KERAS" = Some "1".
Proof.
  split; [reflexivity|]. split; [reflexivity|]. split; [|split; reflexivity].
  unfold artifact_paths.
  rewrite !not_elem_of_union, !not_elem_of_singleton. repeat split; discriminate.
Qed.

(** ** Failure handling across the scripts *)

(** C6 (amended): in every script the conversion or inspection steps sit
    in an [except Exception] block (one per artifact in
    check_model_versions.py) whose handler prints the exception's message.
    Thereafter the function-based scripts return False,
    check_model_versions.py goes on to the next artifact and the summary,
    and create_compatible_model.py just ends.  check_model_versions.py
    and the downgrade attempt never end in an exception, and a building
    routine that reaches its block returns a boolean.  What lies outside
    a block is not caught: the library calls that construct the model and
    the converter before the block in the three building routines,
    loading your_original_model.h5 in create_compatible_model.py, and
    writing the template in convert_model_compatible.py. *)
Theorem guarded_blocks_report_and_recover (L : tf_lib) (w w' : world) (e : exn) :
  (∀ file report,
     CheckModelVersions.analyze_body L file report w = (Raise e, w') →
     CheckModelVersions.analyze L file report w
       = (Ret tt, say w' [CheckModelVersions.error_line file e]))
  ∧ (ConvertModelCompatible.convert_body L w = (Raise e, w') →
     ConvertModelCompatible.convert_with_compatibility_flags L w
       = (Ret false, say w' ["Error: " +:+ exn_msg e]))
  ∧ (∀ c, minimal_converter L = Ret c →
     CreateMinimalModel.try_body L c w = (Raise e, w') →
     CreateMinimalModel.create_minimal_tflite L w
       = (Ret false, say w' ["❌ Failed to create minimal model: " +:+ exn_msg e]))
  ∧ (∀ c model, simple_converter L = Ret c → CreateSimpleModel.build_model L = Ret model →
     CreateSimpleModel.try_body L c (say w ("Model summary:" :: summary L model))
       = (Raise e, w') →
     CreateSimpleModel.create_simple_compatible_model L w
       = (Ret false, say w' ["❌ Failed to create model: " +:+ exn_msg e]))
  ∧ (∀ c model, tf212_converter L = Ret c → CreateTf212Compatible.build_model L = Ret model →
     CreateTf212Compatible.try_body L c (say w ("Model summary:" :: summary L model))
       = (Raise e, w') →
     CreateTf212Compatible.create_compatible_model L w
       = (Ret false, say w' ["❌ Conversion failed: " +:+ exn_msg e]))
  ∧ (∀ model, load_model L "your_original_model.h5" (files w) = Ret model →
     CreateCompatibleModelScript.try_body L
       (CreateCompatibleModelScript.make_converter model) w = (Raise e, w') →
     CreateCompatibleModelScript.main L w
       = (Ret tt, say w' ["Conversion failed: " +:+ exn_msg e]))
  ∧ ((CheckModelVersions.main L w).1 = Ret tt
     ∧ (ConvertModelCompatible.convert_with_compatibility_flags L w).1 = Ret false
     ∧ (∀ c, minimal_converter L = Ret c →
        ∃ b, (CreateMinimalModel.create_minimal_tflite L w).1 = Ret b)
     ∧ (∀ c, simple_converter L = Ret c →
        ∃ b, (CreateSimpleModel.create_simple_compatible_model L w).1 = Ret b)
     ∧ (∀ c, tf212_converter L = Ret c →
        ∃ b, (CreateTf212Compatible.create_compatible_model L w).1 = Ret b))
  ∧ ((minimal_converter L = Raise e →
      (CreateMinimalModel.create_minimal_tflite L w).1 = Raise e)
     ∧ (simple_converter L = Raise e →
        (CreateSimpleModel.create_simple_compatible_model L w).1 = Raise e)
     ∧ (tf212_converter L = Raise e →
        (CreateTf212Compatible.create_compatible_model L w).1 = Raise e))
  ∧ (load_model L "your_original_model.h5" (files w) = Raise e →
     CreateCompatibleModelScript.main L w = (Raise e, w))
  ∧ (∀ w1, ConvertModelCompatible.convert_with_compatibility_flags L w = (Ret false, w1) →
     unwritable w1 !! ConvertModelCompatible.template_path = Some e →
     ConvertModelCompatible.main L w = (Raise e, w1)).
Proof.
  repeat match goal with |- _ ∧ _ => split end.
  - intros file report. apply analyze_caught.
  - intros H. unfold ConvertModelCompatible.convert_with_compatibility_flags.
    rewrite (try_except_caught _ _ _ _ _ H). reflexivity.
  - intros c Hc H. destruct (minimal_unfold L w c Hc) as [-> _].
    rewrite (try_except_caught _ _ _ _ _ H). reflexivity.
  - intros c model Hc Hb H.
    destruct (simple_unfold L w c Hc) as (model' & Hb' & _ & -> & _).
    rewrite Hb in Hb'. injection Hb' as <-.
    rewrite (try_except_caught _ _ _ _ _ H). reflexivity.
  - intros c model Hc Hb H.
    destruct (tf212_unfold L w c Hc) as (model' & Hb' & _ & -> & _).
    rewrite Hb in Hb'. injection Hb' as <-.
    rewrite (try_except_caught _ _ _ _ _ H). reflexivity.
  - intros model Hm H. unfold CreateCompatibleModelScript.main.
    rewrite bind_run. unfold reading at 1. rewrite Hm.
    rewrite (try_except_caught _ _ _ _ _ H). reflexivity.
  - rewrite main_run. reflexivity.
  - apply convert_returns_false.
  - intros c Hc. destruct (minimal_unfold L w c Hc) as [-> _].
    apply try_except_bool. reflexivity.
  - intros c Hc. destruct (simple_unfold L w c Hc) as (model & _ & _ & -> & _).
    apply try_except_bool. reflexivity.
  - intros c Hc. destruct (tf212_unfold L w c Hc) as (model & _ & _ & -> & _).
    apply try_except_bool. reflexivity.
  - intros H. by rewrite (minimal_escapes L w e H).
  - intros H. by destruct (simple_escapes L w e H) as [out ->].
  - intros H. by destruct (tf212_escapes L w e H) as [out ->].
  - intros Hm. unfold CreateCompatibleModelScript.main.
    rewrite bind_run. unfold reading at 1. rewrite Hm. reflexivity.
  - intros w1 Hc Hw. unfold ConvertModelCompatible.main.
    rewrite bind_run, Hc. simpl.
    unfold ConvertModelCompatible.fallback,
      ConvertModelCompatible.create_compatible_converter_script.
    rewrite !bind_run. unfold write_file. rewrite Hw. reflexivity.
Qed.

Lemma guarded_blocks_report_and_recover_witness :
  CreateMinimalModel.create_minimal_tflite Samples.lib_missing Samples.w_empty
  = (Ret false,
     say Samples.w_empty ["❌ Failed to create minimal model: unsupported operation"]).
Proof.
  destruct (guarded_blocks_report_and_recover Samples.lib_missing
              Samples.w_empty Samples.w_empty Samples.converter_error)
    as (_ & _ & H & _).
  eapply H; reflexivity.
Defined.

(** C6 as stated fails on create_compatible_model.py.  With no
    your_original_model.h5 on disk, the load before the block raises, the
    exception escapes the script and nothing is printed.  When the model
    loads and the conversion fails, the handler prints its line and the
    script is over: there is neither a success flag nor a fallback.  And
    in convert_model_compatible.py a failure to write the template, in the
    fallback itself, escapes as well. *)
Lemma template_script_is_not_guarded :
  CreateCompatibleModelScript.main Samples.lib_missing Samples.w_empty
    = (Raise (Samples.no_such_model "your_original_model.h5"), Samples.w_empty)
  ∧ CreateCompatibleModelScript.main Samples.lib_no_convert Samples.w_empty
    = (Ret tt, say Samples.w_empty ["Conversion failed: unsupported operation"])
  ∧ ConvertModelCompatible.main Samples.lib_missing Samples.w_read_only
    = (Raise (Samples.permission_denied "create_compatible_model.py"),
       say Samples.w_read_only
         ["Error: Could not open 'assets/models/best_model.tflite'."]).
Proof. repeat split; reflexivity. Qed.

(** * Further properties of the scripts *)

Lemma lift_run {A} (r : result A) (w : world) : lift r w = (r, w).
Proof. reflexivity. Qed.

Lemma print_shape_run (L : tf_lib) (label : string) (d : gmap string dval)
    (ds : list (gmap string dval)) (v : dval) (w : world) :
  d !! "shape" = Some v →
  print_shape L label (d :: ds) w = (Ret tt, say w [label +:+ ": " +:+ dval_str L v]).
Proof.
  intros H. unfold print_shape, getitem.
  rewrite bind_run, lift_run. simpl item0. cbv beta iota.
  rewrite bind_run, lift_run, H. reflexivity.
Qed.

(** Run the next step, a library call whose outcome [H] gives. *)
Ltac run_lift H := rewrite bind_run, lift_run, H; cbv beta iota.

Lemma reading_run {A} (f : gmap string string → result A) (w : world) :
  reading f w = (f (files w), w).
Proof. reflexivity. Qed.

Ltac run_reading H := rewrite bind_run, reading_run, H; cbv beta iota.

(** ** create_tf212_compatible.py: the operator check after saving *)

Section OperatorCheck.
Import CreateTf212Compatible.

Lemma scan_ops_run (ops : list (gmap string pyval)) (acc : list pyval) (w : world) :
  scan_ops ops acc w
  = (Ret (acc ++ (CheckModelVersions.reported_version
                    <$> List.filter is_fully_connected ops)),
     say w (op_line <$> ops)).
Proof.
  revert acc w. induction ops as [|op ops IH]; intros acc w.
  - simpl. by rewrite app_nil_r, say_nil.
  - simpl scan_ops. rewrite bind_run, print_say, IH, say_say.
    unfold is_fully_connected at 2, CheckModelVersions.reported_name. simpl List.filter.
    fold (is_fully_connected op).
    destruct (py_eq (dict_get op "op_name" (PyStr "Unknown")) (PyStr "FULLY_CONNECTED"));
      simpl; [rewrite <- app_assoc|]; reflexivity.
Qed.

(** X1: the loop over the operator entries prints one line per entry, in
    order, raises nothing, and returns the versions of exactly the
    FULLY_CONNECTED entries, in order, after those already collected. *)
Theorem scan_ops_collects (ops : list (gmap string pyval)) (acc : list pyval)
    (w : world) :
  scan_ops ops acc w
  = (Ret (acc ++ (CheckModelVersions.reported_version
                    <$> List.filter is_fully_connected ops)),
     say w (op_line <$> ops))
  ∧ (∀ v, v ∈ CheckModelVersions.reported_version <$> List.filter is_fully_connected ops
          ↔ ∃ op, op ∈ ops ∧ is_fully_connected op = true
                  ∧ CheckModelVersions.reported_version op = v).
Proof.
  split; [apply scan_ops_run|].
  intros v. rewrite list_elem_of_fmap. split.
  - intros (op & -> & Hop). apply list_elem_of_In, List.filter_In in Hop as [Hin Hfc].
    exists op. by rewrite list_elem_of_In.
  - intros (op & Hin & Hfc & <-). exists op. split; [done|].
    apply list_elem_of_In, List.filter_In. by rewrite <- list_elem_of_In.
Qed.

Lemma py_max_from_ints (m : Z) (zs : list Z) :
  py_max_from (PyInt m) (PyInt <$> zs) = Ret (PyInt (foldl Z.max m zs)).
Proof.
  revert m. induction zs as [|z zs IH]; intros m; [reflexivity|].
  simpl. unfold mbind, result_bind. simpl.
  replace (if m <? z then PyInt z else PyInt m) with (PyInt (Z.max m z)).
  - apply IH.
  - destruct (Z.ltb_spec m z); f_equal; lia.
Qed.

Lemma foldl_max_bound (m : Z) (zs : list Z) (b : Z) :
  foldl Z.max m zs ≤ b ↔ ∀ v, v ∈ m :: zs → v ≤ b.
Proof.
  revert m. induction zs as [|z zs IH]; intros m; simpl.
  - split.
    + intros H v Hv. apply list_elem_of_singleton in Hv. lia.
    + intros H. apply H. left.
  - rewrite IH. split.
    + intros H v Hv. apply elem_of_cons in Hv as [->|Hv].
      * specialize (H (Z.max m z) ltac:(left)). lia.
      * apply elem_of_cons in Hv as [->|Hv].
        -- specialize (H (Z.max m z) ltac:(left)). lia.
        -- apply H. by right.
    + intros H v Hv. apply elem_of_cons in Hv as [->|Hv].
      * pose proof (H m ltac:(left)). pose proof (H z ltac:(right; left)). lia.
      * apply H. right. by right.
Qed.

Lemma verdict_run_on_integers (z : Z) (zs : list Z) (w : world) :
  verdict (PyInt <$> z :: zs) w
  = (Ret tt, say w [fc_verdict_line (foldl Z.max z zs)]).
Proof.
  unfold verdict. rewrite fmap_cons. rewrite bind_run. unfold lift at 1.
  unfold py_max. rewrite py_max_from_ints. rewrite bind_run. unfold lift at 1.
  simpl py_le. unfold fc_verdict_line.
  destruct (foldl Z.max z zs <=? 11); apply print_say.
Qed.

(** X2: when every collected version is an integer, the verdict prints
    exactly one line, about the greatest of them, and calls it COMPATIBLE
    exactly when all the versions are at most 11. *)
Theorem verdict_on_integer_versions (z : Z) (zs : list Z) (w : world) :
  verdict (PyInt <$> z :: zs) w
  = (Ret tt, say w [fc_verdict_line (foldl Z.max z zs)])
  ∧ (fc_verdict_line (foldl Z.max z zs)
     = "✅ FULLY_CONNECTED version " +:+ pretty (foldl Z.max z zs) +:+ " - COMPATIBLE!"
     ↔ ∀ v, v ∈ z :: zs → v ≤ 11).
Proof.
  split.
  - apply verdict_run_on_integers.
  - rewrite <- foldl_max_bound. unfold fc_verdict_line.
    destruct (Z.leb_spec (foldl Z.max z zs) 11); split; try done; try lia.
Qed.

Lemma py_max_from_str_head (a : string) (rest : list pyval) :
  (∃ b, py_max_from (PyStr a) rest = Ret (PyStr b))
  ∨ (∃ e, py_max_from (PyStr a) rest = Raise e ∧ exn_class e = "TypeError").
Proof.
  revert a. induction rest as [|[x|x] rest IH]; intros a; simpl.
  - left. eauto.
  - right. eexists. split; reflexivity.
  - unfold mbind, result_bind. simpl. destruct (String.ltb a x); apply IH.
Qed.

Lemma py_max_from_int_head (m : Z) (rest : list pyval) (s : string) :
  PyStr s ∈ rest →
  ∃ e, py_max_from (PyInt m) rest = Raise e ∧ exn_class e = "TypeError".
Proof.
  revert m. induction rest as [|[x|x] rest IH]; intros m Hs.
  - by apply elem_of_nil in Hs.
  - apply elem_of_cons in Hs as [Hs|Hs]; [discriminate|].
    simpl. unfold mbind, result_bind. simpl.
    destruct (m <? x); by apply IH.
  - simpl. eexists. split; reflexivity.
Qed.

Lemma verdict_raises (vs : list pyval) (s : string) (w : world) :
  PyStr s ∈ vs →
  ∃ e, verdict vs w = (Raise e, w) ∧ exn_class e = "TypeError".
Proof.
  intros Hs. destruct vs as [|v vs]; [by apply elem_of_nil in Hs|].
  unfold verdict. rewrite bind_run. unfold lift at 1. unfold py_max.
  destruct v as [m|a].
  - apply elem_of_cons in Hs as [Hs|Hs]; [discriminate|].
    destruct (py_max_from_int_head m vs s Hs) as (e & -> & He). eauto.
  - destruct (py_max_from_str_head a vs) as [(b & ->)|(e & -> & He)]; [|eauto].
    rewrite bind_run. unfold lift at 1. simpl. eexists. split; reflexivity.
Qed.

(** X3: as soon as one collected version is not an integer (an entry
    without a version field contributes the string Unknown), the verdict
    raises a TypeError, from [max] or from the comparison with 11, and
    prints nothing. *)
Theorem verdict_rejects_unversioned (vs : list pyval) (s : string) (w : world) :
  PyStr s ∈ vs →
  ∃ e, verdict vs w = (Raise e, w) ∧ exn_class e = "TypeError".
Proof. apply verdict_raises. Qed.

Lemma verdict_rejects_unversioned_witness :
  ∃ e, verdict [PyInt 11; PyStr "Unknown"] Samples.w_empty = (Raise e, Samples.w_empty)
       ∧ exn_class e = "TypeError".
Proof.
  apply (verdict_rejects_unversioned [PyInt 11; PyStr "Unknown"] "Unknown" Samples.w_empty).
  right. left.
Defined.

Lemma self_test_unversioned (L : tf_lib) (w : world) (content : string)
    (it : interpreter) (i o : list Z) (ops : list (gmap string pyval))
    (op : gmap string pyval) (s : string) :
  Interpreter_content L content = Ret it →
  allocate_tensors it = Ret tt → declares it i o →
  _get_ops_details it = Ret ops →
  op ∈ ops → is_fully_connected op = true →
  CheckModelVersions.reported_version op = PyStr s →
  ∃ e out, self_test L content w = (Raise e, say w out) ∧ exn_class e = "TypeError".
Proof.
  intros Hload Halloc [Hi Ho] Hops Hin Hfc Hv.
  unfold declared_shape in Hi, Ho.
  destruct (get_input_details it) as [[|di ?]|] eqn:Hdi; try discriminate.
  destruct (di !! "shape") as [[|ai]|] eqn:Hsi; try discriminate.
  destruct (get_output_details it) as [[|do ?]|] eqn:Hdo; try discriminate.
  destruct (do !! "shape") as [[|ao]|] eqn:Hso; try discriminate.
  assert (Hs : PyStr s ∈ [] ++ (CheckModelVersions.reported_version
                                 <$> List.filter is_fully_connected ops)).
  { simpl. apply list_elem_of_fmap. exists op. split; [done|].
    apply list_elem_of_In, List.filter_In. by rewrite <- list_elem_of_In. }
  unfold self_test.
  run_lift Hload. run_lift Halloc. run_lift Hdi. run_lift Hdo.
  rewrite bind_run, (print_shape_run _ _ _ _ _ _ Hsi). cbv beta iota.
  rewrite bind_run, (print_shape_run _ _ _ _ _ _ Hso). cbv beta iota.
  run_lift Hops.
  rewrite bind_run, print_say. cbv beta iota.
  rewrite bind_run, scan_ops_run. cbv beta iota. rewrite bind_run.
  match goal with |- context [verdict ?vs ?w0] =>
    destruct (verdict_raises vs s w0 Hs) as (e & -> & He)
  end.
  rewrite !say_say. eauto.
Qed.

(** X4: an artifact whose operator list holds a FULLY_CONNECTED entry
    without an integer version makes create_compatible_model report
    failure after the fact: the converted model has been saved to
    best_model_compatible.tflite, then the version check raises a
    TypeError, the handler prints it as a conversion failure and the
    routine returns False. *)
Theorem create_compatible_model_fails_after_saving (L : tf_lib) (w : world)
    (c : converter) (content : string) (it : interpreter) (i o : list Z)
    (ops : list (gmap string pyval)) (op : gmap string pyval) (s : string) :
  tf212_converter L = Ret c → convert L c = Ret content →
  unwritable w !! output_path = None →
  Interpreter_content L content = Ret it →
  allocate_tensors it = Ret tt → declares it i o →
  _get_ops_details it = Ret ops →
  op ∈ ops → is_fully_connected op = true →
  CheckModelVersions.reported_version op = PyStr s →
  ∃ e before,
    exn_class e = "TypeError"
    ∧ (create_compatible_model L w).1 = Ret false
    ∧ files ((create_compatible_model L w).2) !! output_path = Some content
    ∧ stdout (create_compatible_model L w).2
      = stdout w ++ before ++ ["❌ Conversion failed: " +:+ exn_msg e].
Proof.
  intros Hc Hconv Hw Hload Halloc Hdecl Hops Hin Hfc Hv.
  destruct (tf212_unfold L w c Hc) as (model & _ & _ & -> & _).
  set (w0 := say w ("Model summary:" :: summary L model)).
  set (w2 := say (World (<[output_path := content]> (files (say w0 ["Converting model..."])))
                        (unwritable w) (environ w)
                        (stdout (say w0 ["Converting model..."])))
                 ["✅ Compatible model saved to: " +:+ output_path]).
  destruct (self_test_unversioned L w2 content it i o ops op s
              Hload Halloc Hdecl Hops Hin Hfc Hv) as (e & out & Hst & He).
  assert (Hbody : try_body L c w0 = (Raise e, say w2 out)).
  { unfold try_body. rewrite bind_run, print_say, bind_run. unfold lift at 1.
    rewrite Hconv, bind_run. unfold write_file. simpl unwritable. rewrite Hw.
    rewrite bind_run, print_say. exact Hst. }
  rewrite (try_except_caught _ _ _ _ _ Hbody).
  exists e, (("Model summary:" :: summary L model)
             ++ ["Converting model..."; "✅ Compatible model saved to: " +:+ output_path]
             ++ out).
  split; [exact He|]. split; [reflexivity|]. split.
  - simpl. apply lookup_insert_eq.
  - simpl. rewrite <- !app_assoc. reflexivity.
Qed.

Lemma create_compatible_model_fails_after_saving_witness :
  ∃ e before,
    exn_class e = "TypeError"
    ∧ (create_compatible_model MoreSamples.lib_unversioned Samples.w_empty).1 = Ret false
    ∧ files ((create_compatible_model MoreSamples.lib_unversioned Samples.w_empty).2)
        !! output_path = Some "TFL3"
    ∧ stdout (create_compatible_model MoreSamples.lib_unversioned Samples.w_empty).2
      = stdout Samples.w_empty ++ before ++ ["❌ Conversion failed: " +:+ exn_msg e].
Proof.
  eapply (create_compatible_model_fails_after_saving MoreSamples.lib_unversioned
            Samples.w_empty _ "TFL3" _ [1; 32000; 1] [1; 3] _
            MoreSamples.fc_without_version "Unknown");
    try reflexivity.
  - split; reflexivity.
  - right. left.
Defined.

End OperatorCheck.

(** ** The building routines: failures after a successful conversion *)

Lemma write_file_denied (path data : string) (e : exn) (w : world) :
  unwritable w !! path = Some e → write_file path data w = (Raise e, w).
Proof. intros H. unfold write_file. by rewrite H. Qed.

Lemma write_file_done (path data : string) (w : world) :
  unwritable w !! path = None →
  write_file path data w
  = (Ret tt, World (<[path := data]> (files w)) (unwritable w) (environ w) (stdout w)).
Proof. intros H. unfold write_file. by rewrite H. Qed.

(** X5: a converted model that has been saved but does not load back makes
    each building routine return False with its usual diagnostic, the
    loader's message in it, while the artifact stays on disk. *)
Theorem unloadable_artifact_is_kept (L : tf_lib) (w : world) (content : string)
    (e : exn) :
  Interpreter_content L content = Raise e →
  (∀ c, minimal_converter L = Ret c → convert L c = Ret content →
     unwritable w !! CreateMinimalModel.artifact_path = None →
     fails_after_saving (CreateMinimalModel.create_minimal_tflite L w) w
       CreateMinimalModel.artifact_path content
       ("❌ Failed to create minimal model: " +:+ exn_msg e))
  ∧ (∀ c, simple_converter L = Ret c → convert L c = Ret content →
     unwritable w !! CreateSimpleModel.artifact_path = None →
     fails_after_saving (CreateSimpleModel.create_simple_compatible_model L w) w
       CreateSimpleModel.artifact_path content
       ("❌ Failed to create model: " +:+ exn_msg e))
  ∧ (∀ c, tf212_converter L = Ret c → convert L c = Ret content →
     unwritable w !! CreateTf212Compatible.output_path = None →
     fails_after_saving (CreateTf212Compatible.create_compatible_model L w) w
       CreateTf212Compatible.output_path content
       ("❌ Conversion failed: " +:+ exn_msg e)).
Proof.
  intros Hload. split; [|split]; intros c Hc Hconv Hw.
  - destruct (minimal_unfold L w c Hc) as [-> _].
    unfold try_except, CreateMinimalModel.try_body.
    run_lift Hconv. rewrite bind_run, (write_file_done _ _ _ Hw). cbv beta iota.
    rewrite bind_run, print_say. cbv beta iota.
    unfold CreateMinimalModel.self_test. run_lift Hload.
    split; [done|]. split; [done|]. simpl.
    exists ["✅ Minimal TFLite model created!"]. by rewrite <- !app_assoc.
  - destruct (simple_unfold L w c Hc) as (model & _ & _ & -> & _).
    unfold try_except, CreateSimpleModel.try_body.
    run_lift Hconv. rewrite bind_run, (write_file_done _ _ (say _ _) Hw). cbv beta iota.
    rewrite bind_run, print_say. cbv beta iota.
    rewrite bind_run, print_say. cbv beta iota.
    unfold CreateSimpleModel.self_test. run_lift Hload.
    split; [done|]. split; [done|]. simpl.
    exists (("Model summary:" :: summary L model)
            ++ [ "✅ Simple compatible model created!";
                 "File: assets/models/simple_compatible_model.tflite" ]).
    by rewrite <- !app_assoc.
  - destruct (tf212_unfold L w c Hc) as (model & _ & _ & -> & _).
    unfold try_except, CreateTf212Compatible.try_body.
    rewrite bind_run, print_say. cbv beta iota.
    run_lift Hconv. rewrite bind_run, (write_file_done _ _ (say (say _ _) _) Hw). cbv beta iota.
    rewrite bind_run, print_say. cbv beta iota.
    unfold CreateTf212Compatible.self_test. run_lift Hload.
    split; [done|]. split; [done|]. simpl.
    exists (("Model summary:" :: summary L model)
            ++ [ "Converting model...";
                 "✅ Compatible model saved to: " +:+ CreateTf212Compatible.output_path ]).
    by rewrite <- !app_assoc.
Qed.

Lemma unloadable_artifact_is_kept_witness :
  fails_after_saving
    (CreateMinimalModel.create_minimal_tflite MoreSamples.lib_unloadable Samples.w_empty)
    Samples.w_empty CreateMinimalModel.artifact_path "TFL3"
    "❌ Failed to create minimal model: Model provided has model identifier 'XXXX', should be 'TFL3'"
  ∧ fails_after_saving
    (CreateSimpleModel.create_simple_compatible_model
       MoreSamples.lib_unloadable Samples.w_empty)
    Samples.w_empty CreateSimpleModel.artifact_path "TFL3"
    "❌ Failed to create model: Model provided has model identifier 'XXXX', should be 'TFL3'"
  ∧ fails_after_saving
    (CreateTf212Compatible.create_compatible_model
       MoreSamples.lib_unloadable Samples.w_empty)
    Samples.w_empty CreateTf212Compatible.output_path "TFL3"
    "❌ Conversion failed: Model provided has model identifier 'XXXX', should be 'TFL3'".
Proof.
  destruct (unloadable_artifact_is_kept MoreSamples.lib_unloadable Samples.w_empty
              "TFL3" Samples.bad_flatbuffer eq_refl) as (H1 & H2 & H3).
  split; [|split]; [eapply H1|eapply H2|eapply H3]; reflexivity.
Defined.

(** X6: when the converted model cannot be written (the open fails), each
    building routine catches the error in the same block: it prints its
    conversion diagnostic with the operating system's message, returns
    False, and the file system is unchanged. *)
Theorem unwritable_artifact_fails_cleanly (L : tf_lib) (w : world) (content : string)
    (e : exn) :
  (∀ c, minimal_converter L = Ret c → convert L c = Ret content →
     unwritable w !! CreateMinimalModel.artifact_path = Some e →
     fails_cleanly (CreateMinimalModel.create_minimal_tflite L w) w
       ("❌ Failed to create minimal model: " +:+ exn_msg e))
  ∧ (∀ c, simple_converter L = Ret c → convert L c = Ret content →
     unwritable w !! CreateSimpleModel.artifact_path = Some e →
     fails_cleanly (CreateSimpleModel.create_simple_compatible_model L w) w
       ("❌ Failed to create model: " +:+ exn_msg e))
  ∧ (∀ c, tf212_converter L = Ret c → convert L c = Ret content →
     unwritable w !! CreateTf212Compatible.output_path = Some e →
     fails_cleanly (CreateTf212Compatible.create_compatible_model L w) w
       ("❌ Conversion failed: " +:+ exn_msg e)).
Proof.
  split; [|split]; intros c Hc Hconv Hw.
  - destruct (minimal_unfold L w c Hc) as [-> _].
    unfold try_except, CreateMinimalModel.try_body.
    run_lift Hconv. rewrite bind_run, (write_file_denied _ _ _ _ Hw). cbv beta iota.
    split; [done|]. split; [done|]. by exists nil.
  - destruct (simple_unfold L w c Hc) as (model & _ & _ & -> & _).
    unfold try_except, CreateSimpleModel.try_body.
    run_lift Hconv. rewrite bind_run, (write_file_denied _ _ _ (say _ _) Hw). cbv beta iota.
    split; [done|]. split; [done|]. simpl.
    exists ("Model summary:" :: summary L model). by rewrite <- !app_assoc.
  - destruct (tf212_unfold L w c Hc) as (model & _ & _ & -> & _).
    unfold try_except, CreateTf212Compatible.try_body.
    rewrite bind_run, print_say. cbv beta iota.
    run_lift Hconv. rewrite bind_run, (write_file_denied _ _ _ (say (say _ _) _) Hw). cbv beta iota.
    split; [done|]. split; [done|]. simpl.
    exists (("Model summary:" :: summary L model) ++ ["Converting model..."]).
    by rewrite <- !app_assoc.
Qed.

Lemma unwritable_artifact_fails_cleanly_witness :
  fails_cleanly
    (CreateSimpleModel.create_simple_compatible_model
       MoreSamples.lib_unloadable MoreSamples.w_no_assets)
    MoreSamples.w_no_assets
    "❌ Failed to create model: [Errno 2] No such file or directory: 'assets/models/simple_compatible_model.tflite'".
Proof.
  destruct (unwritable_artifact_fails_cleanly MoreSamples.lib_unloadable
              MoreSamples.w_no_assets "TFL3"
              (MoreSamples.no_such_directory "assets/models/simple_compatible_model.tflite"))
    as (_ & H & _).
  eapply H; reflexivity.
Defined.

(** ** The building scripts as a whole *)

Lemma routine_returns (body : M bool) (h : exn → M bool) (w : world) :
  (∀ e w0, (h e w0).1 = Ret false) →
  ∃ b w1, try_except body h w = (Ret b, w1).
Proof.
  intros Hh. destruct (try_except_bool body h w Hh) as [b Hb].
  destruct (try_except body h w) as [r w1]. simpl in Hb. subst r. eauto.
Qed.

(** X7: each building script prints the TensorFlow version and runs its
    routine.  If a library call that constructs the model or the
    converter, before the [try] block, raises, the script ends with that
    exception, having written no file.  Otherwise it ends normally and
    prints its closing banner exactly when the routine returned True;
    create_tf212_compatible.py, which first sets TF_USE_LEGACY_KERAS,
    prints a failure line when it returned False, the other two print
    nothing more. *)
Theorem building_scripts_outcome (L : tf_lib) (w : world) :
  (∀ c, minimal_converter L = Ret c →
     ∃ b w1,
       CreateMinimalModel.create_minimal_tflite L
         (say w ["TensorFlow version: " +:+ tf_version L]) = (Ret b, w1)
       ∧ CreateMinimalModel.main L w
         = (Ret tt, if b then say w1 CreateMinimalModel.success_lines else w1))
  ∧ (∀ e, minimal_converter L = Raise e →
     CreateMinimalModel.main L w
     = (Raise e, say w ["TensorFlow version: " +:+ tf_version L]))
  ∧ (∀ c, simple_converter L = Ret c →
     ∃ b w1,
       CreateSimpleModel.create_simple_compatible_model L
         (say w ["TensorFlow version: " +:+ tf_version L]) = (Ret b, w1)
       ∧ CreateSimpleModel.main L w
         = (Ret tt, if b then say w1 CreateSimpleModel.next_steps else w1))
  ∧ (∀ e, simple_converter L = Raise e →
     ∃ out, CreateSimpleModel.main L w
            = (Raise e, say w (("TensorFlow version: " +:+ tf_version L) :: out)))
  ∧ (∀ c, tf212_converter L = Ret c →
     ∃ b w1,
       CreateTf212Compatible.create_compatible_model L
         (World (files w) (unwritable w)
                (<[ "TF_USE_LEGACY_KERAS" := "1" ]> (environ w))
                (stdout w ++ ["TensorFlow version: " +:+ tf_version L])) = (Ret b, w1)
       ∧ CreateTf212Compatible.main L w
         = (Ret tt, if b then say w1 CreateTf212Compatible.success_lines
                    else say w1 [nl +:+ "❌ Failed to create compatible model"]))
  ∧ (∀ e, tf212_converter L = Raise e →
     ∃ out, CreateTf212Compatible.main L w
            = (Raise e,
               World (files w) (unwritable w)
                     (<[ "TF_USE_LEGACY_KERAS" := "1" ]> (environ w))
                     (stdout w ++ ("TensorFlow version: " +:+ tf_version L) :: out))).
Proof.
  repeat match goal with |- _ ∧ _ => split end.
  - intros c1 H1. set (w0 := say w _).
    destruct (minimal_unfold L w0 c1 H1) as [Hu _].
    destruct (routine_returns (CreateMinimalModel.try_body L c1)
                CreateMinimalModel.handler w0) as (b & w1 & Hr); [done|].
    exists b, w1. rewrite Hu. split; [exact Hr|].
    unfold CreateMinimalModel.main. rewrite bind_run, print_say. cbv beta iota.
    fold w0. rewrite bind_run, Hu, Hr. cbv beta iota.
    destruct b; [apply for_each_print|reflexivity].
  - intros e H. unfold CreateMinimalModel.main. rewrite bind_run, print_say.
    cbv beta iota. rewrite bind_run, (minimal_escapes L _ e H). reflexivity.
  - intros c2 H2. set (w0 := say w _).
    destruct (simple_unfold L w0 c2 H2) as (model & _ & _ & Hu & _).
    destruct (routine_returns (CreateSimpleModel.try_body L c2)
                CreateSimpleModel.handler
                (say w0 ("Model summary:" :: summary L model))) as (b & w1 & Hr); [done|].
    exists b, w1. rewrite Hu. split; [exact Hr|].
    unfold CreateSimpleModel.main. rewrite bind_run, print_say. cbv beta iota.
    fold w0. rewrite bind_run, Hu, Hr. cbv beta iota.
    destruct b; [apply for_each_print|reflexivity].
  - intros e H. unfold CreateSimpleModel.main. rewrite bind_run, print_say.
    cbv beta iota.
    destruct (simple_escapes L (say w ["TensorFlow version: " +:+ tf_version L]) e H)
      as [out Hr].
    rewrite bind_run, Hr, say_say. exists out. reflexivity.
  - intros c3 H3. set (w0 := World _ _ _ _).
    destruct (tf212_unfold L w0 c3 H3) as (model & _ & _ & Hu & _).
    destruct (routine_returns (CreateTf212Compatible.try_body L c3)
                CreateTf212Compatible.handler
                (say w0 ("Model summary:" :: summary L model))) as (b & w1 & Hr); [done|].
    exists b, w1. rewrite Hu. split; [exact Hr|].
    unfold CreateTf212Compatible.main. rewrite bind_run.
    unfold CreateTf212Compatible.module_init at 1, setenv at 1. cbv beta iota.
    rewrite bind_run, print_say. cbv beta iota.
    change (say _ ["TensorFlow version: " +:+ tf_version L]) with w0.
    rewrite bind_run, Hu, Hr. cbv beta iota.
    destruct b; [apply for_each_print|apply print_say].
  - intros e H. unfold CreateTf212Compatible.main. rewrite bind_run.
    unfold CreateTf212Compatible.module_init at 1, setenv at 1. cbv beta iota.
    rewrite bind_run, print_say. cbv beta iota.
    destruct (tf212_escapes L
                (say (World (files w) (unwritable w)
                            (<[ "TF_USE_LEGACY_KERAS" := "1" ]> (environ w)) (stdout w))
                     ["TensorFlow version: " +:+ tf_version L]) e H) as [out Hr].
    rewrite bind_run, Hr. exists out. unfold say. simpl.
    by rewrite <- app_assoc.
Qed.

Lemma building_scripts_outcome_witness :
  CreateMinimalModel.main MoreSamples.lib_no_tracing Samples.w_empty
  = (Raise MoreSamples.tracing_error, say Samples.w_empty ["TensorFlow version: 2.15.1"])
  ∧ (∃ out, CreateSimpleModel.main MoreSamples.lib_no_keras Samples.w_empty
            = (Raise MoreSamples.keras_import_error,
               say Samples.w_empty ("TensorFlow version: 2.15.1" :: out)))
  ∧ (∃ b w1,
       CreateTf212Compatible.create_compatible_model Samples.lib_missing
         (World ∅ ∅ (<[ "TF_USE_LEGACY_KERAS" := "1" ]> ∅) ["TensorFlow version: 2.15.0"])
       = (Ret b, w1)
       ∧ CreateTf212Compatible.main Samples.lib_missing Samples.w_empty
         = (Ret tt, if b then say w1 CreateTf212Compatible.success_lines
                    else say w1 [nl +:+ "❌ Failed to create compatible model"])).
Proof.
  split; [|split].
  - destruct (building_scripts_outcome MoreSamples.lib_no_tracing Samples.w_empty)
      as (_ & H & _).
    apply (H MoreSamples.tracing_error). reflexivity.
  - destruct (building_scripts_outcome MoreSamples.lib_no_keras Samples.w_empty)
      as (_ & _ & _ & H & _).
    apply (H MoreSamples.keras_import_error). reflexivity.
  - destruct (building_scripts_outcome Samples.lib_missing Samples.w_empty)
      as (_ & _ & _ & _ & H & _).
    eapply H. reflexivity.
Defined.

(** ** check_model_versions.py: the verdicts of the first check *)

Section Verdicts.
Import CheckModelVersions.

Lemma incompatible_in_best_lines (op : gmap string pyval) :
  incompatible_line ∈ best_lines op
  ↔ reported_name op = PyStr "FULLY_CONNECTED" ∧ reported_version op = PyInt 12.
Proof.
  unfold best_lines, py_eq. rewrite elem_of_cons. split.
  - intros [H|H].
    + exfalso. unfold op_line, incompatible_line in H. simpl in H. discriminate H.
    + case_bool_decide as Hn; [|by apply elem_of_nil in H].
      case_bool_decide as Hv; [done|].
      apply list_elem_of_singleton in H.
      exfalso. unfold compatible_line, incompatible_line in H. simpl in H. discriminate H.
  - intros [Hn Hv]. right. rewrite !bool_decide_eq_true_2 by done. left.
Qed.

Lemma verdicts_of_best_lines (op : gmap string pyval) :
  length (List.filter is_verdict_line (best_lines op))
  = if is_fully_connected op then 1%nat else 0%nat.
Proof.
  unfold best_lines, is_verdict_line. simpl List.filter.
  rewrite op_line_is_entry. simpl negb. cbv iota.
  unfold is_fully_connected.
  destruct (py_eq (reported_name op) _); [|reflexivity].
  destruct (py_eq (reported_version op) _); reflexivity.
Qed.

(** X8: in the report on best_model.tflite the INCOMPATIBLE verdict is
    printed exactly when some entry is named FULLY_CONNECTED and carries
    the integer version 12, and the loop prints exactly one verdict line
    for each FULLY_CONNECTED entry and none for any other entry (so an
    entry without a name, reported as Unknown, never gets one). *)
Theorem best_model_verdicts (ops : list (gmap string pyval)) (w : world) :
  for_each ops report_op_best w = (Ret tt, say w (ops ≫= best_lines))
  ∧ (incompatible_line ∈ ops ≫= best_lines
     ↔ ∃ op, op ∈ ops ∧ reported_name op = PyStr "FULLY_CONNECTED"
              ∧ reported_version op = PyInt 12)
  ∧ length (List.filter is_verdict_line (ops ≫= best_lines))
    = length (List.filter is_fully_connected ops).
Proof.
  split; [apply loop_best|]. split.
  - rewrite list_elem_of_bind. split.
    + intros (op & Hl & Hin). apply incompatible_in_best_lines in Hl. eauto.
    + intros (op & Hin & Hn & Hv). exists op. split; [|done].
      by apply incompatible_in_best_lines.
  - induction ops as [|op ops IH]; [reflexivity|].
    change ((op :: ops) ≫= best_lines) with (best_lines op ++ (ops ≫= best_lines)).
    rewrite List.filter_app, length_app, IH, verdicts_of_best_lines.
    simpl List.filter. destruct (is_fully_connected op); reflexivity.
Qed.

End Verdicts.

(** ** convert_model_compatible.py as a whole *)

Section DowngradeScript.
Import ConvertModelCompatible.

(** X9: where the template can be written, convert_model_compatible.py
    always ends normally, whatever the library does and whether or not
    best_model.tflite loads, and leaves a file system that differs from
    the initial one by the template only; running the script again, even
    against another library, changes no file. *)
Theorem main_always_leaves_template (L L' : tf_lib) (w : world) :
  unwritable w !! template_path = None →
  (main L w).1 = Ret tt
  ∧ files (main L w).2 = <[template_path := script_content]> (files w)
  ∧ files (main L' (main L w).2).2 = files (main L w).2.
Proof.
  intros Hw.
  assert (Hrun : ∀ L0 w0, unwritable w0 !! template_path = None →
            (main L0 w0).1 = Ret tt
            ∧ files (main L0 w0).2 = <[template_path := script_content]> (files w0)
            ∧ unwritable (main L0 w0).2 = unwritable w0).
  { intros L0 w0 H0. destruct (convert_outcome L0 w0) as [out Hc].
    assert (Hm : main L0 w0 = fallback (say w0 out)).
    { unfold main. rewrite bind_run, Hc. reflexivity. }
    rewrite Hm, (fallback_writable (say w0 out) H0). done. }
  destruct (Hrun L w Hw) as (Hr & Hf & Hu). split; [exact Hr|]. split; [exact Hf|].
  destruct (Hrun L' (main L w).2) as (_ & Hf' & _); [by rewrite Hu|].
  rewrite Hf', Hf. apply insert_insert_eq.
Qed.

Lemma main_always_leaves_template_witness :
  (main Samples.lib_missing Samples.w_empty).1 = Ret tt
  ∧ files (main Samples.lib_missing Samples.w_empty).2
    = <[template_path := script_content]> (files Samples.w_empty)
  ∧ files (main (Samples.lib_with_ops []) (main Samples.lib_missing Samples.w_empty).2).2
    = files (main Samples.lib_missing Samples.w_empty).2.
Proof.
  apply (main_always_leaves_template Samples.lib_missing (Samples.lib_with_ops [])
           Samples.w_empty).
  reflexivity.
Defined.

(** X12: what the downgrade attempt prints once best_model.tflite has
    loaded.  With an empty list of input details it is the heading and
    Python's IndexError text; with details lacking the key 'shape', the
    heading and the KeyError text; with both shapes present, the
    heading, the two shapes and the two lines that give up.  It returns
    False in all three cases. *)
Theorem convert_attempt_report (L : tf_lib) (w : world) (it : interpreter)
    (input_details output_details : list (gmap string dval)) :
  Interpreter_path L input_model_path (files w) = Ret it →
  allocate_tensors it = Ret tt →
  get_input_details it = Ret input_details →
  get_output_details it = Ret output_details →
  (input_details = [] →
     convert_with_compatibility_flags L w
     = (Ret false, say w ["Original model details:"; "Error: list index out of range"]))
  ∧ (∀ d ds, input_details = d :: ds → d !! "shape" = None →
     convert_with_compatibility_flags L w
     = (Ret false, say w ["Original model details:"; "Error: 'shape'"]))
  ∧ (∀ d ds vi d' ds' vo,
     input_details = d :: ds → d !! "shape" = Some vi →
     output_details = d' :: ds' → d' !! "shape" = Some vo →
     convert_with_compatibility_flags L w
     = (Ret false,
        say w [ "Original model details:";
                "Input shape: " +:+ dval_str L vi;
                "Output shape: " +:+ dval_str L vo;
                "❌ Cannot directly convert TFLite to compatible TFLite";
                "You need to recreate the model with TensorFlow 2.8 or 2.9" ])).
Proof.
  intros Hload Halloc Hin Hout.
  unfold convert_with_compatibility_flags, convert_body, try_except.
  split; [|split].
  - intros ->. run_reading Hload. run_lift Halloc. run_lift Hin. run_lift Hout.
    rewrite bind_run, print_say. cbv beta iota.
    rewrite bind_run. unfold print_shape at 1. rewrite bind_run, lift_run.
    simpl item0. cbv beta iota. rewrite bind_run, print_say, say_say. reflexivity.
  - intros d ds -> Hd. run_reading Hload. run_lift Halloc. run_lift Hin. run_lift Hout.
    rewrite bind_run, print_say. cbv beta iota.
    rewrite bind_run. unfold print_shape at 1, getitem.
    rewrite bind_run, lift_run. simpl item0. cbv beta iota.
    rewrite bind_run, lift_run, Hd. cbv beta iota.
    rewrite bind_run, print_say, say_say. reflexivity.
  - intros d ds vi d' ds' vo -> Hd -> Hd'.
    run_reading Hload. run_lift Halloc. run_lift Hin. run_lift Hout.
    rewrite bind_run, print_say. cbv beta iota.
    rewrite bind_run, (print_shape_run _ _ _ _ _ _ Hd). cbv beta iota.
    rewrite bind_run, (print_shape_run _ _ _ _ _ _ Hd'). cbv beta iota.
    rewrite bind_run, print_say. cbv beta iota.
    rewrite bind_run, print_say. cbv beta iota.
    rewrite !say_say. reflexivity.
Qed.

Lemma convert_attempt_report_witness :
  convert_with_compatibility_flags MoreSamples.lib_without_inputs Samples.w_empty
  = (Ret false,
     say Samples.w_empty ["Original model details:"; "Error: list index out of range"]).
Proof.
  destruct (convert_attempt_report MoreSamples.lib_without_inputs Samples.w_empty
              MoreSamples.interpreter_without_inputs []
              [ {[ "shape" := DArr [1; 3] ]} ]
              eq_refl eq_refl eq_refl eq_refl) as (H & _).
  apply H. reflexivity.
Defined.

End DowngradeScript.

(** ** create_compatible_model.py: the two outcomes of a conversion *)

Section TemplateScript.
Import CreateCompatibleModelScript.

(** X11: once your_original_model.h5 has loaded and been converted, the
    template script either saves the artifact and prints its success
    line, or, if the artifact cannot be written, catches that error in
    the same block and reports it under the heading Conversion failed,
    leaving the file system as it was.  Either way it ends normally. *)
Theorem template_script_outcomes (L : tf_lib) (w : world) (model : keras_model)
    (content : string) :
  load_model L "your_original_model.h5" (files w) = Ret model →
  convert L (make_converter model) = Ret content →
  (unwritable w !! artifact_path = None →
     main L w
     = (Ret tt,
        World (<[artifact_path := content]> (files w)) (unwritable w) (environ w)
              (stdout w ++ ["✅ Compatible model created!"])))
  ∧ (∀ e, unwritable w !! artifact_path = Some e →
     main L w = (Ret tt, say w ["Conversion failed: " +:+ exn_msg e])).
Proof.
  intros Hload Hconv.
  assert (Hm : main L w = try_except (try_body L (make_converter model)) handler w).
  { unfold main. rewrite bind_run. unfold reading at 1. by rewrite Hload. }
  rewrite Hm. unfold try_except, try_body. split.
  - intros Hw. run_lift Hconv.
    rewrite bind_run, (write_file_done _ _ _ Hw). cbv beta iota.
    rewrite print_say. reflexivity.
  - intros e Hw. run_lift Hconv.
    rewrite bind_run, (write_file_denied _ _ _ _ Hw). reflexivity.
Qed.

Lemma template_script_outcomes_witness :
  main MoreSamples.lib_unloadable Samples.w_empty
  = (Ret tt,
     World {[ artifact_path := "TFL3" ]} ∅ ∅ ["✅ Compatible model created!"])
  ∧ main MoreSamples.lib_unloadable MoreSamples.w_no_assets
  = (Ret tt,
     say MoreSamples.w_no_assets
       ["Conversion failed: [Errno 2] No such file or directory: 'assets/models/best_model_compatible.tflite'"]).
Proof.
  split.
  - destruct (template_script_outcomes MoreSamples.lib_unloadable Samples.w_empty
                Samples.some_model "TFL3" eq_refl eq_refl) as (H & _).
    apply H. reflexivity.
  - destruct (template_script_outcomes MoreSamples.lib_unloadable MoreSamples.w_no_assets
                Samples.some_model "TFL3" eq_refl eq_refl) as (_ & H).
    apply (H (MoreSamples.no_such_directory artifact_path)). reflexivity.
Defined.

End TemplateScript.

(** ** create_tf212_compatible.py: the verdict does not decide the result *)

Section OperatorCheckOutcome.
Import CreateTf212Compatible.

Lemma self_test_versioned (L : tf_lib) (w : world) (content : string)
    (it : interpreter) (i o : list Z) (ops : list (gmap string pyval))
    (z : Z) (zs : list Z) :
  Interpreter_content L content = Ret it →
  allocate_tensors it = Ret tt → declares it i o →
  _get_ops_details it = Ret ops →
  CheckModelVersions.reported_version <$> List.filter is_fully_connected ops
    = PyInt <$> z :: zs →
  ∃ out, self_test L content w
         = (Ret true, say w (out ++ [fc_verdict_line (foldl Z.max z zs)])).
Proof.
  intros Hload Halloc [Hi Ho] Hops Hvs.
  unfold declared_shape in Hi, Ho.
  destruct (get_input_details it) as [[|di ?]|] eqn:Hdi; try discriminate.
  destruct (di !! "shape") as [[|ai]|] eqn:Hsi; try discriminate.
  destruct (get_output_details it) as [[|do ?]|] eqn:Hdo; try discriminate.
  destruct (do !! "shape") as [[|ao]|] eqn:Hso; try discriminate.
  unfold self_test.
  run_lift Hload. run_lift Halloc. run_lift Hdi. run_lift Hdo.
  rewrite bind_run, (print_shape_run _ _ _ _ _ _ Hsi). cbv beta iota.
  rewrite bind_run, (print_shape_run _ _ _ _ _ _ Hso). cbv beta iota.
  run_lift Hops.
  rewrite bind_run, print_say. cbv beta iota.
  rewrite bind_run, scan_ops_run. cbv beta iota. rewrite app_nil_l, Hvs.
  rewrite bind_run, verdict_run_on_integers. cbv beta iota.
  rewrite !say_say.
  exists ([ "Input shape" +:+ ": " +:+ dval_str L (DArr ai);
            "Output shape" +:+ ": " +:+ dval_str L (DArr ao);
            "Operations used:" ] ++ (op_line <$> ops)).
  rewrite <- !app_assoc. reflexivity.
Qed.

(** X10: the verdict on the FULLY_CONNECTED versions does not decide what
    create_compatible_model returns.  When the conversion, the save and
    the self-test go through and the dense layers all carry integer
    versions, the routine returns True with the verdict as its last
    line, be it COMPATIBLE or INCOMPATIBLE. *)
Theorem create_compatible_model_ignores_verdict (L : tf_lib) (w : world)
    (c : converter) (content : string) (it : interpreter) (i o : list Z)
    (ops : list (gmap string pyval)) (z : Z) (zs : list Z) :
  tf212_converter L = Ret c → convert L c = Ret content →
  unwritable w !! output_path = None →
  Interpreter_content L content = Ret it →
  allocate_tensors it = Ret tt → declares it i o →
  _get_ops_details it = Ret ops →
  CheckModelVersions.reported_version <$> List.filter is_fully_connected ops
    = PyInt <$> z :: zs →
  (create_compatible_model L w).1 = Ret true
  ∧ files ((create_compatible_model L w).2) !! output_path = Some content
  ∧ ∃ before, stdout (create_compatible_model L w).2
              = stdout w ++ before ++ [fc_verdict_line (foldl Z.max z zs)].
Proof.
  intros Hc Hconv Hw Hload Halloc Hdecl Hops Hvs.
  destruct (tf212_unfold L w c Hc) as (model & _ & _ & -> & _).
  set (w0 := say w ("Model summary:" :: summary L model)).
  set (w2 := say (World (<[output_path := content]> (files (say w0 ["Converting model..."])))
                        (unwritable w) (environ w)
                        (stdout (say w0 ["Converting model..."])))
                 ["✅ Compatible model saved to: " +:+ output_path]).
  destruct (self_test_versioned L w2 content it i o ops z zs
              Hload Halloc Hdecl Hops Hvs) as (out & Hst).
  assert (Hbody : try_body L c w0
                  = (Ret true, say w2 (out ++ [fc_verdict_line (foldl Z.max z zs)]))).
  { unfold try_body. rewrite bind_run, print_say. cbv beta iota.
    run_lift Hconv. rewrite bind_run, (write_file_done _ _ (say w0 _) Hw).
    cbv beta iota. rewrite bind_run, print_say. exact Hst. }
  rewrite (try_except_passed _ _ _ _ _ Hbody).
  split; [reflexivity|]. split.
  - simpl. apply lookup_insert_eq.
  - exists (("Model summary:" :: summary L model)
            ++ ["Converting model..."; "✅ Compatible model saved to: " +:+ output_path]
            ++ out).
    simpl. rewrite <- !app_assoc. reflexivity.
Qed.

Lemma create_compatible_model_ignores_verdict_witness :
  (create_compatible_model (MoreSamples.lib_dense [11; 12]) Samples.w_empty).1 = Ret true
  ∧ files ((create_compatible_model (MoreSamples.lib_dense [11; 12]) Samples.w_empty).2)
      !! output_path = Some "TFL3"
  ∧ ∃ before,
      stdout (create_compatible_model (MoreSamples.lib_dense [11; 12]) Samples.w_empty).2
      = stdout Samples.w_empty ++ before
        ++ ["❌ FULLY_CONNECTED version 12 - INCOMPATIBLE!"].
Proof.
  eapply (create_compatible_model_ignores_verdict (MoreSamples.lib_dense [11; 12])
            Samples.w_empty _ "TFL3" _ [1; 32000; 1] [1; 3] _ 11 [12]);
    try reflexivity.
  split; reflexivity.
Defined.

End OperatorCheckOutcome.

(** ** check_model_versions.py: a release without the operator listing *)

Section Listing.
Import CheckModelVersions.

(** X13: when the artifact loads and its shapes print but the operator
    listing itself raises (it is a private method of the interpreter),
    the check keeps the two shape lines, does not print the Operations
    heading, and closes with the diagnostic; the script goes on. *)
Theorem analyze_without_listing (L : tf_lib) (w : world) (file : string)
    (report : gmap string pyval → M unit) (it : interpreter)
    (d d' : gmap string dval) (ds ds' : list (gmap string dval)) (vi vo : dval)
    (e : exn) :
  Interpreter_path L ("assets/models/" +:+ file) (files w) = Ret it →
  allocate_tensors it = Ret tt →
  get_input_details it = Ret (d :: ds) → d !! "shape" = Some vi →
  get_output_details it = Ret (d' :: ds') → d' !! "shape" = Some vo →
  _get_ops_details it = Raise e →
  analyze L file report w
  = (Ret tt,
     say w [ analyzing_line file;
             "Input shape: " +:+ dval_str L vi;
             "Output shape: " +:+ dval_str L vo;
             error_line file e ]).
Proof.
  intros Hload Halloc Hin Hd Hout Hd' Hops.
  unfold analyze, try_except, analyze_body, open_report.
  rewrite bind_run, bind_run, print_say. cbv beta iota.
  rewrite bind_run, reading_run. change (files (say w _)) with (files w).
  rewrite Hload. cbv beta iota.
  run_lift Halloc. run_lift Hin. run_lift Hout.
  rewrite bind_run, (print_shape_run _ _ _ _ _ _ Hd). cbv beta iota.
  rewrite bind_run, (print_shape_run _ _ _ _ _ _ Hd'). cbv beta iota.
  run_lift Hops. rewrite print_say, !say_say. reflexivity.
Qed.

Lemma analyze_without_listing_witness :
  analyze MoreSamples.lib_without_listing "best_model.tflite" report_op_best Samples.w_empty
  = (Ret tt,
     say Samples.w_empty
       [ analyzing_line "best_model.tflite";
         "Input shape: [1 32000 1]";
         "Output shape: [1 3]";
         "❌ Error analyzing best_model.tflite: 'Interpreter' object has no attribute '_get_ops_details'" ]).
Proof.
  eapply (analyze_without_listing MoreSamples.lib_without_listing Samples.w_empty
            "best_model.tflite" report_op_best MoreSamples.interpreter_without_listing
            _ _ _ _ (DArr [1; 32000; 1]) (DArr [1; 3]) MoreSamples.no_ops_details);
    reflexivity.
Defined.

End Listing.

(** ** create_minimal_model.py: the traced function *)

(** X14: tracing simple_model at an input specification [b, n, c], the
    library not refusing the two calls for reasons of its own.  A
    negative dimension makes tf.TensorSpec raise a ValueError before any
    tracing.  Otherwise, under the shape rules of the operations it uses,
    simple_model traces exactly when batch size and channel count are
    both 1, whatever the number of samples, and its output then has shape
    [1, 3]; if not, tracing fails at the reshape to [1, 1]. *)
Theorem simple_model_signature (L : tf_lib) (b n c : Z) :
  refuses L (CallTensorSpec [b; n; c] "tf.float32") = None →
  refuses L (CallGetConcreteFunction (TensorSpecOf [b; n; c] "tf.float32")) = None →
  (spec ← TensorSpec L [b; n; c] "tf.float32" ;
   get_concrete_function L CreateMinimalModel.simple_model spec)
  = match List.find (fun d => d <? 0) [b; n; c] with
    | Some d => Raise (ValueError ("Dimension " +:+ pretty d +:+ " must be >= 0"))
    | None =>
        if (b =? 1) && (c =? 1)
        then Ret (ConcreteFunction
                    (CreateMinimalModel.simple_model (TInput [b; n; c]))
                    [b; n; c] [1; 3])
        else Raise (ValueError "cannot reshape: element counts differ")
    end.
Proof.
  intros H1 H2. unfold TensorSpec, calling. rewrite H1.
  simpl List.find.
  destruct (Z.ltb_spec b 0) as [|Hb]; [reflexivity|].
  destruct (n <? 0); [reflexivity|].
  destruct (c <? 0); [reflexivity|].
  unfold mbind at 1, result_bind at 1. cbv beta iota.
  unfold get_concrete_function, calling. simpl ts_shape. rewrite H2.
  unfold CreateMinimalModel.simple_model.
  unfold mbind, result_bind, mret, result_ret. simpl infer.
  unfold mbind, result_bind. simpl.
  replace (b * (c * 1)) with (b * c) by lia.
  change (1 * (1 * 1)) with 1.
  replace (b * c =? 1) with ((b =? 1) && (c =? 1)).
  - destruct ((b =? 1) && (c =? 1)); reflexivity.
  - destruct (Z.eqb_spec b 1) as [->|Hb1].
    + by rewrite Z.mul_1_l.
    + symmetry. simpl andb. apply Z.eqb_neq. intros H.
      apply Hb1. by destruct (Z.eq_mul_1_nonneg b c Hb H).
Qed.

Lemma simple_model_signature_witness :
  (spec ← TensorSpec Samples.lib_missing [1; 16000; 1] "tf.float32" ;
   get_concrete_function Samples.lib_missing CreateMinimalModel.simple_model spec)
  = Ret (ConcreteFunction (CreateMinimalModel.simple_model (TInput [1; 16000; 1]))
                          [1; 16000; 1] [1; 3])
  ∧ (spec ← TensorSpec Samples.lib_missing [2; 32000; 1] "tf.float32" ;
     get_concrete_function Samples.lib_missing CreateMinimalModel.simple_model spec)
  = Raise (ValueError "cannot reshape: element counts differ")
  ∧ (spec ← TensorSpec Samples.lib_missing [1; -5; 1] "tf.float32" ;
     get_concrete_function Samples.lib_missing CreateMinimalModel.simple_model spec)
  = Raise (ValueError "Dimension -5 must be >= 0").
Proof.
  split; [|split].
  - apply (simple_model_signature Samples.lib_missing 1 16000 1); reflexivity.
  - apply (simple_model_signature Samples.lib_missing 2 32000 1); reflexivity.
  - apply (simple_model_signature Samples.lib_missing 1 (-5) 1); reflexivity.
Defined.
